(** * salt-saphana: the crmsh execution module and the saputils state module

    A shallow embedding of [salt/modules/crmshmod.py] and
    [salt/states/saputilsmod.py].  Both modules are thin adapters: the first
    assembles one shell command string per call and hands it to the host's
    [cmd.retcode]; the second wraps one call of the SAPCAR extraction
    delegate into a declarative state result.

    The host is modelled explicitly.  Every effect the modules have on it
    (a command handed to [cmd.retcode], a warning sent to the logger, a call
    of the extraction delegate) is appended to a trace, and what the host
    answers is read from a record of oracles that may depend on the trace so
    far. *)

From Stdlib Require Import ZArith Ascii DecimalString.
From stdpp Require Import base strings list gmap.

(** ** Python values *)

(** The scalar values a caller passes to the modules (what Salt hands over
    after parsing the command line or a state file). *)
Inductive PyVal : Type :=
  | PNone
  | PBool (b : bool)
  | PInt (z : Z)
  | PStr (s : string).

(** [bool(v)]: the test behind every [if v:] of the sources. *)
Definition truthy (v : PyVal) : bool :=
  match v with
  | PNone => false
  | PBool b => b
  | PInt z => negb (z =? 0)%Z
  | PStr s => negb (String.eqb s EmptyString)
  end.

(** What a replacement field [{field}] of [str.format] renders for a value. *)
Definition text (v : PyVal) : string :=
  match v with
  | PNone => "None"
  | PBool true => "True"
  | PBool false => "False"
  | PInt z => NilZero.string_of_int (Z.to_int z)
  | PStr s => s
  end.

(** [isinstance(v, int)]; [bool] is a subclass of [int]. *)
Definition isinstance_int (v : PyVal) : bool :=
  match v with
  | PInt _ | PBool _ => true
  | PNone | PStr _ => false
  end.

(** The exceptions of [salt.exceptions] the modules raise or catch; any
    other exception a delegate may raise is an [OtherException]. *)
Inductive Exn : Type :=
  | SaltInvocationError (msg : string)
  | CommandExecutionError (msg : string)
  | OtherException (msg : string).

(** [six.text_type(err)] *)
Definition text_type (e : Exn) : string :=
  match e with
  | SaltInvocationError msg => msg
  | CommandExecutionError msg => msg
  | OtherException msg => msg
  end.

(** ** The host: trace, oracles and the effect monad *)

Inductive Event : Type :=
  | Exec (cmd : string)
  | LogWarn (msg : string)
  | ExtractSapcar (sapcar_exe : PyVal) (sar_file : string)
                  (output_dir options : PyVal).

Abbreviation Trace := (list Event).

(** The entries of [__salt__] the two modules use. *)
Record Salt : Type := {
  crmsh_version : bool;
  retcode : Trace -> string -> Z;
  extract_sapcar_file :
    Trace -> PyVal -> string -> PyVal -> PyVal -> option Exn
}.

(** [__opts__] *)
Record Opts : Type := { test : PyVal }.

Inductive Outcome (A : Type) : Type :=
  | Return (a : A)
  | Raise (e : Exn).
Arguments Return {A} a.
Arguments Raise {A} e.

Definition M (A : Type) : Type := Trace -> Outcome A * Trace.

Definition ret {A} (a : A) : M A := fun tr => (Return a, tr).

Definition raise {A} (e : Exn) : M A := fun tr => (Raise e, tr).

Definition bind {A B} (m : M A) (k : A -> M B) : M B :=
  fun tr =>
    match m tr with
    | (Return a, tr') => k a tr'
    | (Raise e, tr') => (Raise e, tr')
    end.

(** [try: m except CommandExecutionError as err: h err] *)
Definition try_except_CommandExecutionError {A}
    (m : M A) (h : Exn -> M A) : M A :=
  fun tr =>
    match m tr with
    | (Raise (CommandExecutionError msg), tr') =>
        h (CommandExecutionError msg) tr'
    | r => r
    end.

Notation "x <- m ;; k" := (bind m (fun x => k))
  (at level 100, m at next level, right associativity).
Notation "m ;;; k" := (bind m (fun _ => k))
  (at level 100, right associativity).

(** [__salt__['cmd.retcode'](cmd)] *)
Definition cmd_retcode (salt : Salt) (cmd : string) : M Z :=
  fun tr => (Return (retcode salt tr cmd), tr ++ [Exec cmd]).

(** [LOGGER.warn(msg)] *)
Definition LOGGER_warn (msg : string) : M unit :=
  fun tr => (Return tt, tr ++ [LogWarn msg]).

(** [__salt__['saputils.extract_sapcar_file'](...)] *)
Definition saputils_extract_sapcar_file (salt : Salt)
    (sapcar_exe : PyVal) (sar_file : string) (output_dir options : PyVal)
    : M unit :=
  fun tr =>
    let tr' := tr ++ [ExtractSapcar sapcar_exe sar_file output_dir options] in
    match extract_sapcar_file salt tr sapcar_exe sar_file output_dir options with
    | None => (Return tt, tr')
    | Some e => (Raise e, tr')
    end.

(** ** Text of commands *)

(** [sub] occurs in [s]. *)
Definition contains (sub s : string) : Prop :=
  exists pre post, s = pre +:+ sub +:+ post.

(** The decision procedure for [contains]. *)
Fixpoint containsb (sub s : string) : bool :=
  String.prefix sub s ||
  match s with
  | EmptyString => false
  | String _ s' => containsb sub s'
  end.

(** No character of [s] is the blank that separates the words of a command. *)
Fixpoint spaceless (s : string) : bool :=
  match s with
  | EmptyString => true
  | String c s' => negb (Ascii.eqb c " "%char) && spaceless s'
  end.

(** The double quote character, as a string. *)
Definition dquote : string := String (Ascii.ascii_of_nat 34) EmptyString.

(** The command [cmd] runs the program [bin]: its first word is [bin]. *)
Definition on_binary (bin cmd : string) : Prop :=
  cmd = bin \/ exists args, cmd = bin +:+ " " +:+ args.

(** ** salt/modules/crmshmod.py *)

Module Crmshmod.

Definition CRM_COMMAND : string := "/usr/sbin/crm".
Definition HA_INIT_COMMAND : string := "/usr/sbin/ha-cluster-init".
Definition HA_JOIN_COMMAND : string := "/usr/sbin/ha-cluster-join".

Section WithHost.

Variable salt : Salt.

Definition status : M Z :=
  let cmd := CRM_COMMAND +:+ " status" in
  cmd_retcode salt cmd.

Definition cluster_status : M Z :=
  let cmd := CRM_COMMAND +:+ " cluster status" in
  cmd_retcode salt cmd.

Definition cluster_start : M Z :=
  let cmd := CRM_COMMAND +:+ " cluster start" in
  cmd_retcode salt cmd.

Definition cluster_stop : M Z :=
  let cmd := CRM_COMMAND +:+ " cluster stop" in
  cmd_retcode salt cmd.

Definition cluster_run (cmd : PyVal) : M Z :=
  let cmd := CRM_COMMAND +:+ " cluster run " +:+ dquote +:+ text cmd
             +:+ dquote in
  cmd_retcode salt cmd.

Definition cluster_health : M Z :=
  let cmd := CRM_COMMAND +:+ " cluster health" in
  cmd_retcode salt cmd.

Definition wait_for_startup (timeout : PyVal) : M Z :=
  let cmd := CRM_COMMAND +:+ " cluster wait_for_startup" in
  cmd <- (if truthy timeout then
            if negb (isinstance_int timeout) then
              raise (SaltInvocationError "timeout must be integer type")
            else ret (cmd +:+ " " +:+ text timeout)
          else ret cmd) ;;
  cmd_retcode salt cmd.

Definition _crm_init
    (name watchdog interface unicast admin_ip sbd sbd_dev quiet : PyVal)
    : M Z :=
  let cmd := CRM_COMMAND +:+ " cluster init -y -n " +:+ text name in
  let cmd := if truthy watchdog then cmd +:+ " -w " +:+ text watchdog
             else cmd in
  let cmd := if truthy interface then cmd +:+ " -i " +:+ text interface
             else cmd in
  let cmd := if truthy unicast then cmd +:+ " -u" else cmd in
  let cmd := if truthy admin_ip then cmd +:+ " -A " +:+ text admin_ip
             else cmd in
  let cmd := if truthy sbd then
               let cmd := cmd +:+ " --enable-sbd" in
               if truthy sbd_dev then cmd +:+ " -s " +:+ text sbd_dev
               else cmd
             else cmd in
  let cmd := if truthy quiet then cmd +:+ " -q" else cmd in
  cmd_retcode salt cmd.

Definition _ha_cluster_init
    (interface unicast admin_ip sbd sbd_dev quiet : PyVal) : M Z :=
  let cmd := HA_INIT_COMMAND +:+ " -y" in
  let cmd := if truthy interface then cmd +:+ " -i " +:+ text interface
             else cmd in
  let cmd := if truthy unicast then cmd +:+ " -u" else cmd in
  let cmd := if truthy admin_ip then cmd +:+ " -A " +:+ text admin_ip
             else cmd in
  let cmd := if truthy sbd then
               let cmd := cmd +:+ " -S" in
               if truthy sbd_dev then cmd +:+ " -s " +:+ text sbd_dev
               else cmd
             else cmd in
  let cmd := if truthy quiet then cmd +:+ " -q" else cmd in
  cmd_retcode salt cmd.

Definition cluster_init
    (name watchdog interface unicast admin_ip sbd sbd_dev quiet : PyVal)
    : M Z :=
  if crmsh_version salt then
    _crm_init name watchdog interface unicast admin_ip sbd sbd_dev quiet
  else
    LOGGER_warn "The parameters name and watchdog are not considered!" ;;;
    _ha_cluster_init interface unicast admin_ip sbd sbd_dev quiet.

Definition _crm_join (host watchdog interface quiet : PyVal) : M Z :=
  let cmd := CRM_COMMAND +:+ " cluster join -y -c " +:+ text host in
  let cmd := if truthy watchdog then cmd +:+ " -w " +:+ text watchdog
             else cmd in
  let cmd := if truthy interface then cmd +:+ " -i " +:+ text interface
             else cmd in
  let cmd := if truthy quiet then cmd +:+ " -q" else cmd in
  cmd_retcode salt cmd.

Definition _ha_cluster_join (host interface quiet : PyVal) : M Z :=
  let cmd := HA_JOIN_COMMAND +:+ " -y -c " +:+ text host in
  let cmd := if truthy interface then cmd +:+ " -i " +:+ text interface
             else cmd in
  let cmd := if truthy quiet then cmd +:+ " -q" else cmd in
  cmd_retcode salt cmd.

Definition cluster_join (host watchdog interface quiet : PyVal) : M Z :=
  if crmsh_version salt then
    _crm_join host watchdog interface quiet
  else
    LOGGER_warn "The parameter watchdog is not considered!" ;;;
    _ha_cluster_join host interface quiet.

Definition cluster_remove (host force quiet : PyVal) : M Z :=
  let cmd := CRM_COMMAND +:+ " cluster remove -y -c " +:+ text host in
  let cmd := if truthy force then cmd +:+ " --force" else cmd in
  let cmd := if truthy quiet then cmd +:+ " -q" else cmd in
  cmd_retcode salt cmd.

Definition configure_load (method url is_xml : PyVal) : M Z :=
  let cmd := CRM_COMMAND +:+ " configure load "
             +:+ (if truthy is_xml then "xml " else EmptyString)
             +:+ text method +:+ " " +:+ text url in
  cmd_retcode salt cmd.

End WithHost.

End Crmshmod.

(** ** os.path.dirname

    The state module calls [os.path.dirname] of the Python library; on the
    platforms the module runs on this is [posixpath.dirname]:
    [i = p.rfind('/') + 1; head = p[:i]; if head and head != '/'*len(head):
    head = head.rstrip('/')]. *)

Module Posixpath.

Definition is_sep (c : ascii) : bool := Ascii.eqb c "/"%char.

(** [p.rfind('/')], the position [pos] being that of the first character
    of [p] and [last] the result so far. *)
Fixpoint rfind_sep_from (pos : Z) (last : Z) (p : string) : Z :=
  match p with
  | EmptyString => last
  | String c p' =>
      rfind_sep_from (pos + 1) (if is_sep c then pos else last) p'
  end.

Definition rfind_sep (p : string) : Z := rfind_sep_from 0 (-1) p.

(** [s == '/' * len(s)] *)
Fixpoint all_sep (s : string) : bool :=
  match s with
  | EmptyString => true
  | String c s' => is_sep c && all_sep s'
  end.

(** [s.rstrip('/')] *)
Fixpoint rstrip_sep (s : string) : string :=
  match s with
  | EmptyString => EmptyString
  | String c s' =>
      match rstrip_sep s' with
      | EmptyString => if is_sep c then EmptyString else String c EmptyString
      | r => String c r
      end
  end.

Definition dirname (p : string) : string :=
  let i := (rfind_sep p + 1)%Z in
  let head := String.substring 0 (Z.to_nat i) p in
  if negb (String.eqb head EmptyString) && negb (all_sep head)
  then rstrip_sep head
  else head.

End Posixpath.

(** ** salt/states/saputilsmod.py *)

Module Saputilsmod.

(** The state result dictionary, with its four keys. *)
Record StateRet : Type := {
  name : string;
  changes : gmap string PyVal;
  result : PyVal;
  comment : string
}.

(** [ret['result'] = v] *)
Definition set_result (v : PyVal) (r : StateRet) : StateRet :=
  {| name := name r; changes := changes r; result := v;
     comment := comment r |}.

(** [ret['comment'] = s] *)
Definition set_comment (s : string) (r : StateRet) : StateRet :=
  {| name := name r; changes := changes r; result := result r;
     comment := s |}.

(** [ret['changes'][k] = v] *)
Definition set_change (k : string) (v : PyVal) (r : StateRet) : StateRet :=
  {| name := name r; changes := <[k := v]> (changes r); result := result r;
     comment := comment r |}.

Section WithHost.

Variable salt : Salt.
Variable opts : Opts.

Definition sar_file_extracted
    (name sapcar_exe : PyVal) (sar_file : string)
    (output_dir options : PyVal) : M StateRet :=
  let ret0 := {| Saputilsmod.name := sar_file;
                 changes := ∅;
                 result := PBool false;
                 comment := EmptyString |} in
  if truthy (test opts) then
    let ret1 := set_result PNone ret0 in
    let ret1 := set_comment (sar_file +:+ " would be extracted") ret1 in
    let ret1 := set_change "output_dir" output_dir ret1 in
    ret ret1
  else
    try_except_CommandExecutionError
      (saputils_extract_sapcar_file salt
         sapcar_exe sar_file output_dir options ;;;
       let ret1 :=
         if truthy output_dir then
           set_change "output_dir" output_dir ret0
         else
           set_change "output_dir" (PStr (Posixpath.dirname sar_file)) ret0 in
       let ret1 := set_comment (sar_file +:+ " file extracted") ret1 in
       let ret1 := set_result (PBool true) ret1 in
       ret ret1)
      (fun err =>
         let ret1 := set_comment (text_type err) ret0 in
         ret ret1).

End WithHost.

End Saputilsmod.

(** ** The command invocation of the specification

    The specification describes a command as an executable path followed
    by an ordered argument list.  These definitions follow its words; the
    theorems below relate them to the strings the builders assemble. *)

Module CommandSpec.

Import Crmshmod.

(** The words of a command, joined by single blanks. *)
Definition unwords (ws : list string) : string := String.concat " " ws.

(** A flag that carries a value, emitted only for a truthy argument. *)
Definition valued (flag : string) (v : PyVal) : list string :=
  if truthy v then [flag; text v] else [].

(** A flag without a value, emitted only for a truthy argument. *)
Definition bare (flag : string) (v : PyVal) : list string :=
  if truthy v then [flag] else [].

(** The sbd enablement flag, followed by the device only when sbd is
    enabled. *)
Definition sbd_flags (enable : string) (sbd sbd_dev : PyVal) : list string :=
  if truthy sbd then enable :: valued "-s" sbd_dev else [].

(** New generation init: watchdog, interface, unicast, admin IP,
    sbd (+ device), quiet. *)
Definition crm_init_spec
    (name watchdog interface unicast admin_ip sbd sbd_dev quiet : PyVal)
    : list string :=
  [CRM_COMMAND; "cluster"; "init"; "-y"; "-n"; text name]
  ++ valued "-w" watchdog
  ++ valued "-i" interface
  ++ bare "-u" unicast
  ++ valued "-A" admin_ip
  ++ sbd_flags "--enable-sbd" sbd sbd_dev
  ++ bare "-q" quiet.

(** Legacy init: the same flags without name and watchdog. *)
Definition ha_cluster_init_spec
    (interface unicast admin_ip sbd sbd_dev quiet : PyVal) : list string :=
  [HA_INIT_COMMAND; "-y"]
  ++ valued "-i" interface
  ++ bare "-u" unicast
  ++ valued "-A" admin_ip
  ++ sbd_flags "-S" sbd sbd_dev
  ++ bare "-q" quiet.

(** New generation join. *)
Definition crm_join_spec (host watchdog interface quiet : PyVal)
    : list string :=
  [CRM_COMMAND; "cluster"; "join"; "-y"; "-c"; text host]
  ++ valued "-w" watchdog
  ++ valued "-i" interface
  ++ bare "-q" quiet.

(** Legacy join: no watchdog. *)
Definition ha_cluster_join_spec (host interface quiet : PyVal)
    : list string :=
  [HA_JOIN_COMMAND; "-y"; "-c"; text host]
  ++ valued "-i" interface
  ++ bare "-q" quiet.

(** [configure load [xml ]<method> <url>] *)
Definition configure_load_spec (method url is_xml : PyVal) : list string :=
  [CRM_COMMAND; "configure"; "load"]
  ++ (if truthy is_xml then ["xml"] else [])
  ++ [text method; text url].

End CommandSpec.

(** ** Concrete hosts, used to run the modules on examples *)

(** A host on which every command exits with [code] and the extraction
    delegate answers [outcome]. *)
Definition fixed_salt (new_tool : bool) (code : Z) (outcome : option Exn)
    : Salt :=
  {| crmsh_version := new_tool;
     retcode := fun _ _ => code;
     extract_sapcar_file := fun _ _ _ _ _ => outcome |}.

Definition test_mode (v : PyVal) : Opts := {| test := v |}.

(** ** Module activation: the [__virtual__] functions

    What the loader offers a module while it decides whether to load:
    [salt.utils.path.which], [pkg.version] and [pkg.version_cmp].  A
    [__virtual__] function answers with the virtual name of the module or
    with [(False, reason)]. *)

Record Loader : Type := {
  which : string -> PyVal;
  pkg_version : string -> string;
  pkg_version_cmp : string -> string -> Z
}.

Inductive Virtual : Type :=
  | Loaded (virtualname : string)
  | NotLoaded (reason : string).

Module CrmshmodActivation.

Import Crmshmod.

Definition __virtualname__ : string := "crm".
Definition CRMSH : string := "crmsh".
Definition CRM_NEW_VERSION : string := "3.0.0".

(** [__salt__['crmsh.version'] = use_crm] *)
Definition set_crmsh_version (use_crm : bool) (salt : Salt) : Salt :=
  {| crmsh_version := use_crm;
     retcode := retcode salt;
     extract_sapcar_file := extract_sapcar_file salt |}.

(** The answer, the [__salt__] dictionary afterwards and the lines sent
    to [LOGGER.info], in order. *)
Definition __virtual__ (loader : Loader) (salt : Salt)
    : Virtual * Salt * list string :=
  if truthy (which loader CRM_COMMAND) then
    let version := pkg_version loader CRMSH in
    let use_crm :=
      (0 <=? pkg_version_cmp loader version CRM_NEW_VERSION)%Z in
    let log :=
      [ "crmsh version: " +:+ version;
        (if use_crm then "crm" else "ha-cluster") +:+ " will be used" ] in
    if negb use_crm && negb (truthy (which loader HA_INIT_COMMAND)) then
      (NotLoaded
         ("The crmsh execution module failed to load: the ha-cluster-init"
          +:+ " package is not available."),
       salt, log)
    else
      (Loaded __virtualname__, set_crmsh_version use_crm salt, log)
  else
    (NotLoaded
       ("The crmsh execution module failed to load: the crm package"
        +:+ " is not available."),
     salt, []).

End CrmshmodActivation.

Module SaputilsmodActivation.

Definition __virtualname__ : string := "saputils".

(** [HAS_SAPUTILS] records whether [shaptools] could be imported. *)
Definition __virtual__ (HAS_SAPUTILS : bool) : Virtual :=
  if HAS_SAPUTILS then Loaded __virtualname__
  else
    NotLoaded
      ("The saputils execution module failed to load: the shaptools python"
       +:+ " library is not available.").

End SaputilsmodActivation.

(** ** Shapes of a call, used to state what every operation does *)

(** The call [m] logs at most one warning, then hands exactly one command
    to the host, on one of the three known binaries, and returns the exit
    code the host gives for it. *)
Definition one_command (salt : Salt) (m : M Z) : Prop :=
  forall tr : Trace,
    exists (warnings : list string) (cmd : string),
      m tr = (Return (retcode salt (tr ++ (LogWarn <$> warnings)) cmd),
              tr ++ (LogWarn <$> warnings) ++ [Exec cmd])
      /\ length warnings <= 1
      /\ (on_binary Crmshmod.CRM_COMMAND cmd
          \/ on_binary Crmshmod.HA_INIT_COMMAND cmd
          \/ on_binary Crmshmod.HA_JOIN_COMMAND cmd).

(** A loader that finds exactly the binaries of [found] and reports the
    crmsh version as comparing [cmp] with the threshold. *)
Definition fixed_loader (found : list string) (version : string) (cmp : Z)
    : Loader :=
  {| which := fun path =>
       if existsb (String.eqb path) found then PStr path else PNone;
     pkg_version := fun _ => version;
     pkg_version_cmp := fun _ _ => cmp |}.

(** * Properties *)

#[local] Arguments String.append !s1 s2 : simpl nomatch.

Import Crmshmod CommandSpec.

(** ** Strings *)

Lemma string_app_assoc (a b c : string) : (a +:+ b) +:+ c = a +:+ (b +:+ c).
Proof. induction a as [|x a IH]; simpl; [reflexivity | now rewrite IH]. Qed.

Lemma string_app_nil_r (a : string) : a +:+ EmptyString = a.
Proof. induction a as [|x a IH]; simpl; [reflexivity | now rewrite IH]. Qed.

Lemma prefix_spec (p s : string) :
  String.prefix p s = true <-> exists t, s = p +:+ t.
Proof.
  revert s; induction p as [|c p IH]; intros s; simpl.
  - destruct s; simpl; split; eauto.
  - destruct s as [|d s]; simpl.
    + split; [discriminate | intros [t Ht]; discriminate].
    + destruct (ascii_dec c d) as [->|Hne].
      * rewrite IH. split; intros [t Ht]; exists t; congruence.
      * split; [discriminate | intros [t Ht]; congruence].
Qed.

Lemma containsb_spec (p s : string) : containsb p s = true <-> contains p s.
Proof.
  induction s as [|c s IH]; cbn [containsb].
  - rewrite orb_false_r, prefix_spec. split.
    + intros [t Ht]. exists EmptyString, t. exact Ht.
    + intros [pre [post H]]. destruct pre; simpl in H.
      * eauto.
      * discriminate.
  - rewrite orb_true_iff, prefix_spec, IH. split.
    + intros [[t Ht] | [pre [post H]]].
      * exists EmptyString, t. exact Ht.
      * exists (String c pre), post. simpl. now rewrite H.
    + intros [pre [post H]]. destruct pre as [|d pre]; simpl in H.
      * left; eauto.
      * right. exists pre, post. congruence.
Qed.

Lemma containsb_false (p s : string) : containsb p s = false -> ~ contains p s.
Proof. intros H C. apply containsb_spec in C. congruence. Qed.

Lemma spaceless_prefix_blank (p post a b : string) :
  spaceless p = true -> p +:+ post = a +:+ " " +:+ b ->
  exists a', a = p +:+ a'.
Proof.
  revert a; induction p as [|c p IH]; intros a Hp H; simpl in *.
  - eauto.
  - apply andb_true_iff in Hp as [Hc Hp].
    destruct a as [|d a]; simpl in H.
    + injection H as -> _. discriminate.
    + injection H as -> H. destruct (IH a Hp H) as [a' ->]. eauto.
Qed.

Lemma contains_split_blank (p a b : string) :
  spaceless p = true -> contains p (a +:+ " " +:+ b) ->
  contains p a \/ contains p b.
Proof.
  intros Hp [pre [post H]]. revert a H.
  induction pre as [|c pre IH]; intros a H; simpl in H.
  - symmetry in H. destruct (spaceless_prefix_blank _ _ _ _ Hp H) as [a' ->].
    left. exists EmptyString, a'. reflexivity.
  - destruct a as [|d a]; simpl in H.
    + injection H as _ H. right. exists pre, post. exact H.
    + injection H as -> H. destruct (IH a H) as [[x [y ->]] | Hb].
      * left. exists (String c x), y. reflexivity.
      * now right.
Qed.

Lemma contains_unwords (p : string) (ws : list string) :
  spaceless p = true -> contains p (unwords ws) ->
  p = EmptyString \/ exists w, In w ws /\ contains p w.
Proof.
  intros Hp. induction ws as [|w ws IH]; intros H.
  - left. destruct H as [pre [post H]]. simpl in H.
    destruct pre; simpl in H; [|discriminate]. destruct p; [reflexivity|discriminate].
  - destruct ws as [|w' ws].
    + right. exists w. split; [now left | exact H].
    + change (unwords (w :: w' :: ws)) with (w +:+ " " +:+ unwords (w' :: ws)) in H.
      apply contains_split_blank in H as [H|H]; [| |exact Hp].
      * right. exists w. split; [now left | exact H].
      * destruct (IH H) as [->|[x [Hx Hc]]]; [now left|].
        right. exists x. split; [now right | exact Hc].
Qed.

Lemma on_binary_unique (b1 b2 cmd : string) :
  spaceless b1 = true -> spaceless b2 = true ->
  on_binary b1 cmd -> on_binary b2 cmd -> b1 = b2.
Proof.
  revert b2 cmd. induction b1 as [|c b1 IH]; intros b2 cmd H1 H2 O1 O2.
  - destruct b2 as [|d b2]; [reflexivity|]. exfalso.
    simpl in H2. apply andb_true_iff in H2 as [Hd _].
    destruct O1 as [-> | [args ->]]; destruct O2 as [E | [args' E]];
      simpl in E; try discriminate; injection E as <- _; discriminate.
  - simpl in H1. apply andb_true_iff in H1 as [Hc H1].
    destruct b2 as [|d b2].
    + exfalso. destruct O2 as [-> | [args ->]]; destruct O1 as [E | [args' E]];
        simpl in E; try discriminate; injection E as <- _; discriminate.
    + simpl in H2. apply andb_true_iff in H2 as [Hd H2].
      assert (c = d /\ exists cmd', on_binary b1 cmd' /\ on_binary b2 cmd') as [-> [cmd' [A B]]].
      { destruct O1 as [-> | [args ->]]; destruct O2 as [E | [args' E]];
          simpl in E; injection E as -> E; (split; [reflexivity|]).
        - exists b1. split; [now left | left; exact E].
        - exists b1. split; [now left | right; exists args'; exact E].
        - exists b2. split; [right; exists args; symmetry; exact E | now left].
        - exists (b1 +:+ " " +:+ args).
          split; [right; exists args; reflexivity | right; exists args'; exact E]. }
      f_equal. eapply IH; eauto.
Qed.

(** ** The builders assemble the words of the specification *)

Ltac same_command :=
  f_equal; rewrite ?string_app_assoc; reflexivity.

Lemma crm_init_command (salt : Salt)
    (name watchdog interface unicast admin_ip sbd sbd_dev quiet : PyVal) :
  _crm_init salt name watchdog interface unicast admin_ip sbd sbd_dev quiet
  = cmd_retcode salt
      (unwords (crm_init_spec name watchdog interface unicast admin_ip
                  sbd sbd_dev quiet)).
Proof.
  unfold _crm_init, crm_init_spec, sbd_flags, valued, bare.
  destruct (truthy watchdog), (truthy interface), (truthy unicast),
    (truthy admin_ip), (truthy sbd), (truthy sbd_dev), (truthy quiet);
    same_command.
Qed.

Lemma ha_cluster_init_command (salt : Salt)
    (interface unicast admin_ip sbd sbd_dev quiet : PyVal) :
  _ha_cluster_init salt interface unicast admin_ip sbd sbd_dev quiet
  = cmd_retcode salt
      (unwords (ha_cluster_init_spec interface unicast admin_ip
                  sbd sbd_dev quiet)).
Proof.
  unfold _ha_cluster_init, ha_cluster_init_spec, sbd_flags, valued, bare.
  destruct (truthy interface), (truthy unicast),
    (truthy admin_ip), (truthy sbd), (truthy sbd_dev), (truthy quiet);
    same_command.
Qed.

Lemma crm_join_command (salt : Salt) (host watchdog interface quiet : PyVal) :
  _crm_join salt host watchdog interface quiet
  = cmd_retcode salt (unwords (crm_join_spec host watchdog interface quiet)).
Proof.
  unfold _crm_join, crm_join_spec, valued, bare.
  destruct (truthy watchdog), (truthy interface), (truthy quiet);
    same_command.
Qed.

Lemma ha_cluster_join_command (salt : Salt) (host interface quiet : PyVal) :
  _ha_cluster_join salt host interface quiet
  = cmd_retcode salt (unwords (ha_cluster_join_spec host interface quiet)).
Proof.
  unfold _ha_cluster_join, ha_cluster_join_spec, valued, bare.
  destruct (truthy interface), (truthy quiet); same_command.
Qed.

Lemma in_valued (x flag : string) (v : PyVal) :
  In x (valued flag v) -> x = flag \/ x = text v.
Proof.
  unfold valued. destruct (truthy v); simpl; intuition.
Qed.

Lemma in_bare (x flag : string) (v : PyVal) : In x (bare flag v) -> x = flag.
Proof.
  unfold bare. destruct (truthy v); simpl; intuition.
Qed.

Lemma contains_refl_app (sub pre : string) : contains sub (pre +:+ sub).
Proof.
  exists pre, EmptyString. now rewrite string_app_nil_r.
Qed.

(** A word without blanks that occurs in a command occurs in one of the
    words the command was joined from. *)
Lemma contains_word (p : string) (ws : list string) :
  spaceless p = true -> p <> EmptyString ->
  contains p (unwords ws) -> exists w, In w ws /\ contains p w.
Proof.
  intros Hp Hne H.
  destruct (contains_unwords p ws Hp H) as [->|Hw]; [now destruct Hne | exact Hw].
Qed.

(** Splits [H : In x (ws1 ++ ... ++ wsn)] into one goal per word. *)
Ltac word_cases H :=
  repeat (apply in_app_or in H as [H|H]);
  try (apply in_valued in H as [H|H]);
  try (apply in_bare in H);
  simpl in H; intuition subst.

(** Closes a goal with [H : contains p w] for closed strings [p] and [w]
    where [p] does not occur in [w]. *)
Ltac absurd_contains :=
  match goal with
  | H : contains ?p ?w |- _ =>
      exfalso; revert H; apply containsb_false; vm_compute; reflexivity
  end.

(** ** Cluster initialisation *)

(** C1: with the generation flag true, [cluster_init(name)] hands
    [/usr/sbin/crm cluster init -y -n <name>] to the host, a command on the
    crm binary and not on ha-cluster-init (whose path can occur in it only
    inside the caller's name), and logs nothing; with the flag false it
    logs a warning and hands over [/usr/sbin/ha-cluster-init -y], whatever
    the name: a command on the legacy binary, whose words are the binary
    and [-y], with no [-n] in it. *)
Theorem cluster_init_dispatch (salt : Salt) (name : PyVal) (tr : Trace) :
  (crmsh_version salt = true ->
     let cmd := CRM_COMMAND +:+ " cluster init -y -n " +:+ text name in
     cluster_init salt name PNone PNone PNone PNone PNone PNone PNone tr
       = (Return (retcode salt tr cmd), tr ++ [Exec cmd])
     /\ contains ("cluster init -y -n " +:+ text name) cmd
     /\ on_binary CRM_COMMAND cmd
     /\ ~ on_binary HA_INIT_COMMAND cmd
     /\ (contains HA_INIT_COMMAND cmd ->
         contains HA_INIT_COMMAND (text name)))
  /\ (crmsh_version salt = false ->
     let warning :=
       LogWarn "The parameters name and watchdog are not considered!" in
     let cmd := "/usr/sbin/ha-cluster-init -y" in
     cluster_init salt name PNone PNone PNone PNone PNone PNone PNone tr
       = (Return (retcode salt (tr ++ [warning]) cmd),
          tr ++ [warning; Exec cmd])
     /\ on_binary HA_INIT_COMMAND cmd
     /\ String.words cmd = [HA_INIT_COMMAND; "-y"]
     /\ ~ contains "-n" cmd).
Proof.
  split; intros Hflag; cbv zeta; unfold cluster_init; rewrite Hflag.
  - assert (Hbin : on_binary CRM_COMMAND
                     (CRM_COMMAND +:+ " cluster init -y -n " +:+ text name)).
    { right. exists ("cluster init -y -n " +:+ text name). reflexivity. }
    split; [reflexivity|]. split; [|split; [exact Hbin|split]].
    + exists "/usr/sbin/crm ", EmptyString.
      now rewrite string_app_nil_r.
    + intros Hlegacy.
      assert (E : CRM_COMMAND = HA_INIT_COMMAND)
        by (eapply on_binary_unique; eauto).
      discriminate E.
    + intros H.
      change (CRM_COMMAND +:+ " cluster init -y -n " +:+ text name)
        with (unwords [CRM_COMMAND; "cluster"; "init"; "-y"; "-n"; text name])
        in H.
      apply contains_word in H as [w [Hin H]]; [| reflexivity | discriminate].
      simpl in Hin; intuition subst; solve [assumption | absurd_contains].
  - split; [|split; [|split]].
    + unfold bind, LOGGER_warn, _ha_cluster_init, cmd_retcode. simpl.
      now rewrite <- app_assoc.
    + right. exists "-y". reflexivity.
    + reflexivity.
    + apply containsb_false. vm_compute. reflexivity.
Qed.

Lemma cluster_init_dispatch_witness :
  cluster_init (fixed_salt true 0 None) (PStr "hacluster")
    PNone PNone PNone PNone PNone PNone PNone []
    = (Return 0%Z, [Exec "/usr/sbin/crm cluster init -y -n hacluster"])
  /\ cluster_init (fixed_salt false 0 None) (PStr "hacluster")
       PNone PNone PNone PNone PNone PNone PNone []
     = (Return 0%Z,
        [LogWarn "The parameters name and watchdog are not considered!";
         Exec "/usr/sbin/ha-cluster-init -y"]).
Proof.
  split.
  - exact (proj1 (proj1 (cluster_init_dispatch (fixed_salt true 0 None)
                           (PStr "hacluster") []) eq_refl)).
  - exact (proj1 (proj2 (cluster_init_dispatch (fixed_salt false 0 None)
                           (PStr "hacluster") []) eq_refl)).
Defined.

(** C2: for every combination of the optional arguments the new
    generation init builder hands the host the command whose words are
    [/usr/sbin/crm cluster init -y -n <name>] followed by the flags in the
    order watchdog [-w], interface [-i], unicast [-u] (no value), admin IP
    [-A], sbd [--enable-sbd] (followed by [-s <sbd_dev>] only when sbd is
    enabled), quiet [-q], a flag being left out when its argument is falsy
    or absent. *)
Theorem crm_init_flag_order (salt : Salt)
    (name watchdog interface unicast admin_ip sbd sbd_dev quiet : PyVal)
    (tr : Trace) :
  let cmd :=
    unwords (crm_init_spec name watchdog interface unicast admin_ip
               sbd sbd_dev quiet) in
  _crm_init salt name watchdog interface unicast admin_ip sbd sbd_dev quiet tr
  = (Return (retcode salt tr cmd), tr ++ [Exec cmd]).
Proof.
  cbv zeta. now rewrite crm_init_command.
Qed.

Example crm_init_all_flags :
  _crm_init (fixed_salt true 0 None) (PStr "hacluster")
    (PStr "/dev/watchdog") (PStr "eth0") (PBool true) (PStr "192.168.1.50")
    (PBool true) (PStr "/dev/sdb") (PBool true) []
  = (Return 0%Z,
     [Exec ("/usr/sbin/crm cluster init -y -n hacluster -w /dev/watchdog"
            +:+ " -i eth0 -u -A 192.168.1.50 --enable-sbd -s /dev/sdb -q")]).
Proof. reflexivity. Qed.

Example crm_init_some_flags :
  _crm_init (fixed_salt true 0 None) (PStr "hacluster")
    PNone (PStr "eth0") (PBool false) PNone
    (PInt 0) (PStr "/dev/sdb") (PInt 1) []
  = (Return 0%Z, [Exec "/usr/sbin/crm cluster init -y -n hacluster -i eth0 -q"]).
Proof. reflexivity. Qed.

(** C3: when sbd is not set, neither init builder emits the [-s <sbd_dev>]
    token, whatever [sbd_dev] is: the command handed to the host is made of
    the other flags only, and the text [-s] does not occur in it unless the
    caller wrote it into another argument. *)
Theorem sbd_dev_only_with_sbd (salt : Salt)
    (name watchdog interface unicast admin_ip sbd sbd_dev quiet : PyVal)
    (tr : Trace) :
  truthy sbd = false ->
  let new_cmd :=
    unwords ([CRM_COMMAND; "cluster"; "init"; "-y"; "-n"; text name]
             ++ valued "-w" watchdog ++ valued "-i" interface
             ++ bare "-u" unicast ++ valued "-A" admin_ip
             ++ bare "-q" quiet) in
  let legacy_cmd :=
    unwords ([HA_INIT_COMMAND; "-y"]
             ++ valued "-i" interface ++ bare "-u" unicast
             ++ valued "-A" admin_ip ++ bare "-q" quiet) in
  _crm_init salt name watchdog interface unicast admin_ip sbd sbd_dev quiet tr
    = (Return (retcode salt tr new_cmd), tr ++ [Exec new_cmd])
  /\ _ha_cluster_init salt interface unicast admin_ip sbd sbd_dev quiet tr
    = (Return (retcode salt tr legacy_cmd), tr ++ [Exec legacy_cmd])
  /\ ((forall v, In v [name; watchdog; interface; admin_ip] ->
         ~ contains "-s" (text v)) ->
      ~ contains "-s" new_cmd)
  /\ ((forall v, In v [interface; admin_ip] -> ~ contains "-s" (text v)) ->
      ~ contains "-s" legacy_cmd).
Proof.
  intros Hsbd. cbv zeta.
  split; [|split; [|split]].
  - rewrite crm_init_command. unfold crm_init_spec, sbd_flags.
    now rewrite Hsbd.
  - rewrite ha_cluster_init_command. unfold ha_cluster_init_spec, sbd_flags.
    now rewrite Hsbd.
  - intros Hclean H.
    apply contains_word in H as [w [Hin H]]; [| reflexivity | discriminate].
    assert (Hn : ~ contains "-s" (text name))
      by (apply Hclean; simpl; auto).
    assert (Hw : ~ contains "-s" (text watchdog))
      by (apply Hclean; simpl; auto).
    assert (Hi : ~ contains "-s" (text interface))
      by (apply Hclean; simpl; auto).
    assert (Ha : ~ contains "-s" (text admin_ip))
      by (apply Hclean; simpl; auto).
    clear Hclean.
    word_cases Hin; first [tauto | absurd_contains].
  - intros Hclean H.
    apply contains_word in H as [w [Hin H]]; [| reflexivity | discriminate].
    assert (Hi : ~ contains "-s" (text interface))
      by (apply Hclean; simpl; auto).
    assert (Ha : ~ contains "-s" (text admin_ip))
      by (apply Hclean; simpl; auto).
    clear Hclean.
    word_cases Hin; first [tauto | absurd_contains].
Qed.

Lemma sbd_dev_only_with_sbd_witness :
  truthy PNone = false
  /\ _crm_init (fixed_salt true 0 None) (PStr "hacluster")
       PNone (PStr "eth0") PNone PNone PNone (PStr "/dev/sdb") PNone []
     = (Return 0%Z, [Exec "/usr/sbin/crm cluster init -y -n hacluster -i eth0"])
  /\ _ha_cluster_init (fixed_salt true 0 None)
       (PStr "eth0") PNone PNone PNone (PStr "/dev/sdb") PNone []
     = (Return 0%Z, [Exec "/usr/sbin/ha-cluster-init -y -i eth0"])
  /\ ~ contains "-s" "/usr/sbin/crm cluster init -y -n hacluster -i eth0"
  /\ ~ contains "-s" "/usr/sbin/ha-cluster-init -y -i eth0".
Proof.
  destruct (sbd_dev_only_with_sbd (fixed_salt true 0 None) (PStr "hacluster")
              PNone (PStr "eth0") PNone PNone PNone (PStr "/dev/sdb") PNone
              [] eq_refl) as [A [B [C D]]].
  split; [reflexivity|]. split; [exact A|]. split; [exact B|]. split.
  - apply C. intros v Hv. apply containsb_false.
    simpl in Hv.
    destruct Hv as [<-|[<-|[<-|[<-|[]]]]]; reflexivity.
  - apply D. intros v Hv. apply containsb_false.
    simpl in Hv.
    destruct Hv as [<-|[<-|[]]]; reflexivity.
Defined.

(** ** Joining a cluster *)

(** C4: with the generation flag false, [cluster_join] logs a warning and
    hands the host a command on ha-cluster-join built from the host, the
    interface and the quiet flag only, so that the watchdog value does not
    appear in it (a watchdog text that is a single word occurs in the
    command only if one of those words already carries it); with the flag
    true and a watchdog supplied, the command is on the crm binary and
    includes [-w <watchdog>]. *)
Theorem cluster_join_watchdog (salt : Salt)
    (host watchdog interface quiet : PyVal) (tr : Trace) :
  (crmsh_version salt = false ->
     let warning := LogWarn "The parameter watchdog is not considered!" in
     let cmd := unwords (ha_cluster_join_spec host interface quiet) in
     cluster_join salt host watchdog interface quiet tr
       = (Return (retcode salt (tr ++ [warning]) cmd),
          tr ++ [warning; Exec cmd])
     /\ on_binary HA_JOIN_COMMAND cmd
     /\ (spaceless (text watchdog) = true ->
         text watchdog <> EmptyString ->
         (forall w,
            In w [HA_JOIN_COMMAND; "-y"; "-c"; text host;
                  "-i"; text interface; "-q"] ->
            ~ contains (text watchdog) w) ->
         ~ contains (text watchdog) cmd))
  /\ (crmsh_version salt = true ->
      truthy watchdog = true ->
      let cmd := unwords (crm_join_spec host watchdog interface quiet) in
      cluster_join salt host watchdog interface quiet tr
        = (Return (retcode salt tr cmd), tr ++ [Exec cmd])
      /\ on_binary CRM_COMMAND cmd
      /\ contains ("-w " +:+ text watchdog) cmd).
Proof.
  split.
  - intros Hflag. cbv zeta. unfold cluster_join. rewrite Hflag.
    split; [|split].
    + unfold bind, LOGGER_warn. rewrite ha_cluster_join_command.
      unfold cmd_retcode. now rewrite <- app_assoc.
    + right. exists (unwords (["-y"; "-c"; text host]
                              ++ valued "-i" interface ++ bare "-q" quiet)).
      reflexivity.
    + intros Hword Hne Hclean H.
      apply contains_word in H as [w [Hin H]]; [| assumption | assumption].
      apply (Hclean w); [|exact H].
      unfold ha_cluster_join_spec in Hin.
      word_cases Hin; simpl; tauto.
  - intros Hflag Hw. cbv zeta. unfold cluster_join. rewrite Hflag.
    split; [|split].
    + now rewrite crm_join_command.
    + right. exists (unwords (["cluster"; "join"; "-y"; "-c"; text host]
                              ++ valued "-w" watchdog
                              ++ valued "-i" interface ++ bare "-q" quiet)).
      reflexivity.
    + unfold crm_join_spec, valued, bare. rewrite Hw.
      destruct (truthy interface), (truthy quiet);
        [ exists ("/usr/sbin/crm cluster join -y -c " +:+ text host +:+ " "),
                 (" -i " +:+ text interface +:+ " -q")
        | exists ("/usr/sbin/crm cluster join -y -c " +:+ text host +:+ " "),
                 (" -i " +:+ text interface)
        | exists ("/usr/sbin/crm cluster join -y -c " +:+ text host +:+ " "),
                 " -q"
        | exists ("/usr/sbin/crm cluster join -y -c " +:+ text host +:+ " "),
                 EmptyString ];
        rewrite ?string_app_assoc, ?string_app_nil_r; reflexivity.
Qed.

Lemma cluster_join_watchdog_witness :
  cluster_join (fixed_salt false 0 None)
    (PStr "192.168.1.41") (PStr "/dev/watchdog") PNone PNone []
    = (Return 0%Z,
       [LogWarn "The parameter watchdog is not considered!";
        Exec "/usr/sbin/ha-cluster-join -y -c 192.168.1.41"])
  /\ ~ contains "/dev/watchdog" "/usr/sbin/ha-cluster-join -y -c 192.168.1.41"
  /\ cluster_join (fixed_salt true 0 None)
       (PStr "192.168.1.41") (PStr "/dev/watchdog") PNone PNone []
     = (Return 0%Z,
        [Exec "/usr/sbin/crm cluster join -y -c 192.168.1.41 -w /dev/watchdog"])
  /\ contains "-w /dev/watchdog"
       "/usr/sbin/crm cluster join -y -c 192.168.1.41 -w /dev/watchdog".
Proof.
  destruct (cluster_join_watchdog (fixed_salt false 0 None)
              (PStr "192.168.1.41") (PStr "/dev/watchdog") PNone PNone [])
    as [Legacy _].
  destruct (Legacy eq_refl) as [A [_ B]].
  destruct (cluster_join_watchdog (fixed_salt true 0 None)
              (PStr "192.168.1.41") (PStr "/dev/watchdog") PNone PNone [])
    as [_ New].
  destruct (New eq_refl eq_refl) as [C [_ D]].
  split; [exact A|]. split; [|split; [exact C | exact D]].
  apply B; [reflexivity | discriminate |].
  intros w Hw. apply containsb_false. simpl in Hw.
  destruct Hw as [<-|[<-|[<-|[<-|[<-|[<-|[<-|[]]]]]]]]; reflexivity.
Defined.

(** ** Waiting for the cluster *)

(** C5, as the code has it: [wait_for_startup(timeout=30)] hands the host
    a command whose last word is [30]; for every truthy timeout that is
    not an integer the call raises [SaltInvocationError] and nothing is
    handed to the host (the trace is unchanged); and every falsy timeout
    ([None], [False], [0], the empty text) is treated as absent: it is
    not checked, and the command is handed to the host without a
    timeout. *)
Theorem wait_for_startup_timeout (salt : Salt) (tr : Trace) :
  (let cmd := "/usr/sbin/crm cluster wait_for_startup 30" in
   wait_for_startup salt (PInt 30) tr
     = (Return (retcode salt tr cmd), tr ++ [Exec cmd])
   /\ last (String.words cmd) = Some "30")
  /\ (forall timeout : PyVal,
        truthy timeout = true ->
        isinstance_int timeout = false ->
        wait_for_startup salt timeout tr
          = (Raise (SaltInvocationError "timeout must be integer type"), tr))
  /\ (forall timeout : PyVal,
        truthy timeout = false ->
        let cmd := "/usr/sbin/crm cluster wait_for_startup" in
        wait_for_startup salt timeout tr
          = (Return (retcode salt tr cmd), tr ++ [Exec cmd])).
Proof.
  split; [|split].
  - split; reflexivity.
  - intros timeout Htruthy Hint.
    unfold wait_for_startup, bind. now rewrite Htruthy, Hint.
  - intros timeout Hfalsy. cbv zeta.
    unfold wait_for_startup, bind. now rewrite Hfalsy.
Qed.

Lemma wait_for_startup_timeout_witness :
  wait_for_startup (fixed_salt true 0 None) (PStr "x") []
    = (Raise (SaltInvocationError "timeout must be integer type"), [])
  /\ wait_for_startup (fixed_salt true 0 None) (PBool false) []
    = (Return 0%Z, [Exec "/usr/sbin/crm cluster wait_for_startup"])
  /\ wait_for_startup (fixed_salt true 0 None) (PInt 0) []
    = (Return 0%Z, [Exec "/usr/sbin/crm cluster wait_for_startup"]).
Proof.
  split; [|split].
  - exact (proj1 (proj2 (wait_for_startup_timeout (fixed_salt true 0 None) []))
             (PStr "x") eq_refl eq_refl).
  - exact (proj2 (proj2 (wait_for_startup_timeout (fixed_salt true 0 None) []))
             (PBool false) eq_refl).
  - exact (proj2 (proj2 (wait_for_startup_timeout (fixed_salt true 0 None) []))
             (PInt 0) eq_refl).
Defined.

(** C5 as stated fails: the empty text is a supplied timeout that is not
    an integer, yet no error is raised and the command is executed. *)
Lemma wait_for_startup_falsy_timeout_unchecked :
  PStr EmptyString <> PNone
  /\ isinstance_int (PStr EmptyString) = false
  /\ wait_for_startup (fixed_salt true 0 None) (PStr EmptyString) []
     = (Return 0%Z, [Exec "/usr/sbin/crm cluster wait_for_startup"]).
Proof.
  split; [discriminate|]. split; reflexivity.
Qed.

(** ** Loading a configuration *)

(** C6: [configure_load] hands the host
    [/usr/sbin/crm configure load xml <method> <url>] when [is_xml] is
    truthy and [/usr/sbin/crm configure load <method> <url>] otherwise,
    the method and the url being rendered as they are; these are the words
    of the specification joined by single blanks. *)
Theorem configure_load_command (salt : Salt)
    (method url is_xml : PyVal) (tr : Trace) :
  let cmd :=
    if truthy is_xml
    then "/usr/sbin/crm configure load xml " +:+ text method
         +:+ " " +:+ text url
    else "/usr/sbin/crm configure load " +:+ text method
         +:+ " " +:+ text url in
  configure_load salt method url is_xml tr
    = (Return (retcode salt tr cmd), tr ++ [Exec cmd])
  /\ cmd = unwords (configure_load_spec method url is_xml).
Proof.
  cbv zeta. unfold configure_load, configure_load_spec, cmd_retcode.
  destruct (truthy is_xml); split; reflexivity.
Qed.

Example configure_load_update_xml :
  configure_load (fixed_salt true 0 None)
    (PStr "update") (PStr "file.conf") (PBool true) []
  = (Return 0%Z, [Exec "/usr/sbin/crm configure load xml update file.conf"])
  /\ configure_load (fixed_salt true 0 None)
       (PStr "update") (PStr "file.conf") (PBool false) []
     = (Return 0%Z, [Exec "/usr/sbin/crm configure load update file.conf"])
  /\ configure_load (fixed_salt true 0 None)
       (PStr "update") (PStr "file.conf") PNone []
     = (Return 0%Z, [Exec "/usr/sbin/crm configure load update file.conf"]).
Proof. repeat split. Qed.

(** ** Extraction of a SAR archive *)

Import Saputilsmod.

Example dirname_examples :
  Posixpath.dirname "home/sapuser/saprouter_600-80003478.sar" = "home/sapuser"
  /\ Posixpath.dirname "/x.sar" = "/"
  /\ Posixpath.dirname "x.sar" = EmptyString
  /\ Posixpath.dirname "/a//b" = "/a"
  /\ Posixpath.dirname "//x" = "//".
Proof. repeat split. Qed.

(** C7: outside dry-run mode, when the extraction delegate raises a
    [CommandExecutionError], [sar_file_extracted] returns (it does not
    raise) the record with result [False], the text of the error as its
    comment and an empty changes mapping. *)
Theorem sar_file_extracted_failure (salt : Salt) (opts : Opts)
    (name sapcar_exe : PyVal) (sar_file : string)
    (output_dir options : PyVal) (tr : Trace) (msg : string) :
  truthy (test opts) = false ->
  extract_sapcar_file salt tr sapcar_exe sar_file output_dir options
    = Some (CommandExecutionError msg) ->
  sar_file_extracted salt opts name sapcar_exe sar_file output_dir options tr
  = (Return {| Saputilsmod.name := sar_file;
               changes := ∅;
               result := PBool false;
               comment := text_type (CommandExecutionError msg) |},
     tr ++ [ExtractSapcar sapcar_exe sar_file output_dir options]).
Proof.
  intros Htest Hfail.
  unfold sar_file_extracted. rewrite Htest.
  unfold try_except_CommandExecutionError, bind, saputils_extract_sapcar_file.
  rewrite Hfail. reflexivity.
Qed.

Lemma sar_file_extracted_failure_witness :
  sar_file_extracted
    (fixed_salt true 0 (Some (CommandExecutionError "SAPCAR not found")))
    (test_mode (PBool false))
    (PStr "extract_sap_car_file") (PStr "./SAPCAR.exe")
    "home/sapuser/saprouter_600-80003478.sar" PNone PNone []
  = (Return {| Saputilsmod.name := "home/sapuser/saprouter_600-80003478.sar";
               changes := ∅;
               result := PBool false;
               comment := "SAPCAR not found" |},
     [ExtractSapcar (PStr "./SAPCAR.exe")
        "home/sapuser/saprouter_600-80003478.sar" PNone PNone]).
Proof.
  exact (sar_file_extracted_failure
           (fixed_salt true 0 (Some (CommandExecutionError "SAPCAR not found")))
           (test_mode (PBool false))
           (PStr "extract_sap_car_file") (PStr "./SAPCAR.exe")
           "home/sapuser/saprouter_600-80003478.sar" PNone PNone []
           "SAPCAR not found" eq_refl eq_refl).
Defined.

(** C8: outside dry-run mode, when the extraction delegate succeeds,
    [sar_file_extracted] returns the record with result [True], comment
    [<sar_file> file extracted] and, as its only change, [output_dir]:
    the explicit output directory when one is given (a truthy value), else
    the parent directory of [sar_file]. *)
Theorem sar_file_extracted_success (salt : Salt) (opts : Opts)
    (name sapcar_exe : PyVal) (sar_file : string)
    (output_dir options : PyVal) (tr : Trace) :
  truthy (test opts) = false ->
  extract_sapcar_file salt tr sapcar_exe sar_file output_dir options = None ->
  let effective_dir :=
    if truthy output_dir then output_dir
    else PStr (Posixpath.dirname sar_file) in
  sar_file_extracted salt opts name sapcar_exe sar_file output_dir options tr
  = (Return {| Saputilsmod.name := sar_file;
               changes := {[ "output_dir" := effective_dir ]};
               result := PBool true;
               comment := sar_file +:+ " file extracted" |},
     tr ++ [ExtractSapcar sapcar_exe sar_file output_dir options]).
Proof.
  intros Htest Hok. cbv zeta.
  unfold sar_file_extracted. rewrite Htest.
  unfold try_except_CommandExecutionError, bind, saputils_extract_sapcar_file.
  rewrite Hok. cbv beta iota zeta.
  unfold ret, set_result, set_comment, set_change.
  destruct (truthy output_dir); cbn [Saputilsmod.name changes result comment];
    now rewrite insert_empty.
Qed.

Lemma sar_file_extracted_success_witness :
  sar_file_extracted (fixed_salt true 0 None) (test_mode (PBool false))
    (PStr "extract_sap_car_file") (PStr "./SAPCAR.exe")
    "home/sapuser/saprouter_600-80003478.sar" PNone PNone []
  = (Return {| Saputilsmod.name := "home/sapuser/saprouter_600-80003478.sar";
               changes := {[ "output_dir" := PStr "home/sapuser" ]};
               result := PBool true;
               comment :=
                 "home/sapuser/saprouter_600-80003478.sar file extracted" |},
     [ExtractSapcar (PStr "./SAPCAR.exe")
        "home/sapuser/saprouter_600-80003478.sar" PNone PNone])
  /\ sar_file_extracted (fixed_salt true 0 None) (test_mode (PBool false))
       (PStr "extract_sap_car_file") (PStr "./SAPCAR.exe")
       "home/sapuser/saprouter_600-80003478.sar"
       (PStr "home/sapuser/saprouter_inst") (PStr "-manifest SIGNATURE.SMF") []
     = (Return {| Saputilsmod.name := "home/sapuser/saprouter_600-80003478.sar";
                  changes :=
                    {[ "output_dir" := PStr "home/sapuser/saprouter_inst" ]};
                  result := PBool true;
                  comment :=
                    "home/sapuser/saprouter_600-80003478.sar file extracted" |},
        [ExtractSapcar (PStr "./SAPCAR.exe")
           "home/sapuser/saprouter_600-80003478.sar"
           (PStr "home/sapuser/saprouter_inst")
           (PStr "-manifest SIGNATURE.SMF")]).
Proof.
  split.
  - exact (sar_file_extracted_success
             (fixed_salt true 0 None) (test_mode (PBool false))
             (PStr "extract_sap_car_file") (PStr "./SAPCAR.exe")
             "home/sapuser/saprouter_600-80003478.sar" PNone PNone []
             eq_refl eq_refl).
  - exact (sar_file_extracted_success
             (fixed_salt true 0 None) (test_mode (PBool false))
             (PStr "extract_sap_car_file") (PStr "./SAPCAR.exe")
             "home/sapuser/saprouter_600-80003478.sar"
             (PStr "home/sapuser/saprouter_inst")
             (PStr "-manifest SIGNATURE.SMF") []
             eq_refl eq_refl).
Defined.

(** C9: in dry-run mode [sar_file_extracted] returns, on any host and
    without calling the extraction delegate (the trace is unchanged), the
    record with result [None], comment [<sar_file> would be extracted] and
    the intended [output_dir] as its only change. *)
Theorem sar_file_extracted_dry_run (salt : Salt) (opts : Opts)
    (name sapcar_exe : PyVal) (sar_file : string)
    (output_dir options : PyVal) (tr : Trace) :
  truthy (test opts) = true ->
  sar_file_extracted salt opts name sapcar_exe sar_file output_dir options tr
  = (Return {| Saputilsmod.name := sar_file;
               changes := {[ "output_dir" := output_dir ]};
               result := PNone;
               comment := sar_file +:+ " would be extracted" |},
     tr).
Proof.
  intros Htest. unfold sar_file_extracted. rewrite Htest.
  unfold ret, set_result, set_comment, set_change.
  cbn [Saputilsmod.name changes result comment].
  now rewrite insert_empty.
Qed.

Lemma sar_file_extracted_dry_run_witness :
  sar_file_extracted
    (fixed_salt true 0 (Some (CommandExecutionError "SAPCAR not found")))
    (test_mode (PBool true))
    (PStr "extract_sap_car_file") (PStr "./SAPCAR.exe")
    "home/sapuser/saprouter_600-80003478.sar"
    (PStr "home/sapuser/saprouter_inst") PNone []
  = (Return {| Saputilsmod.name := "home/sapuser/saprouter_600-80003478.sar";
               changes :=
                 {[ "output_dir" := PStr "home/sapuser/saprouter_inst" ]};
               result := PNone;
               comment :=
                 "home/sapuser/saprouter_600-80003478.sar would be extracted" |},
     []).
Proof.
  exact (sar_file_extracted_dry_run
           (fixed_salt true 0 (Some (CommandExecutionError "SAPCAR not found")))
           (test_mode (PBool true))
           (PStr "extract_sap_car_file") (PStr "./SAPCAR.exe")
           "home/sapuser/saprouter_600-80003478.sar"
           (PStr "home/sapuser/saprouter_inst") PNone [] eq_refl).
Defined.

(** C10: the [name] argument has no effect on what [sar_file_extracted]
    does, and whenever a record is returned its [name] field is
    [sar_file]; a record is returned in dry-run mode, when the delegate
    succeeds and when it raises a [CommandExecutionError] (the call raises
    only what the delegate raised outside dry-run mode, and only if that
    is no [CommandExecutionError]). *)
Theorem sar_file_extracted_name (salt : Salt) (opts : Opts)
    (name sapcar_exe : PyVal) (sar_file : string)
    (output_dir options : PyVal) (tr : Trace) :
  (forall name' : PyVal,
     sar_file_extracted salt opts name' sapcar_exe sar_file output_dir
       options tr
     = sar_file_extracted salt opts name sapcar_exe sar_file output_dir
         options tr)
  /\ match
       fst (sar_file_extracted salt opts name sapcar_exe sar_file output_dir
              options tr)
     with
     | Return r => Saputilsmod.name r = sar_file
     | Raise e =>
         truthy (test opts) = false
         /\ extract_sapcar_file salt tr sapcar_exe sar_file output_dir options
            = Some e
         /\ forall msg, e <> CommandExecutionError msg
     end.
Proof.
  split; [reflexivity|].
  unfold sar_file_extracted.
  destruct (truthy (test opts)); [reflexivity|].
  unfold try_except_CommandExecutionError, bind, saputils_extract_sapcar_file.
  destruct (extract_sapcar_file salt tr sapcar_exe sar_file output_dir options)
    as [[msg|msg|msg]|]; cbn.
  - repeat split. discriminate.
  - reflexivity.
  - repeat split. discriminate.
  - destruct (truthy output_dir); reflexivity.
Qed.

(** * Further properties of the cluster shell module *)

Lemma unwords_app (l1 l2 : list string) :
  l1 <> [] -> l2 <> [] ->
  unwords (l1 ++ l2) = unwords l1 +:+ " " +:+ unwords l2.
Proof.
  intros H1 H2. induction l1 as [|a l1 IH]; [now destruct H1|].
  destruct l1 as [|b l1].
  - destruct l2 as [|c l2]; [now destruct H2 | reflexivity].
  - change (unwords ((a :: b :: l1) ++ l2))
      with (a +:+ " " +:+ unwords ((b :: l1) ++ l2)).
    rewrite IH by discriminate.
    change (unwords (a :: b :: l1)) with (a +:+ " " +:+ unwords (b :: l1)).
    now rewrite !string_app_assoc.
Qed.

(** A run of consecutive words of a command occurs in the command. *)
Lemma contains_unwords_infix (l1 ws l2 : list string) :
  ws <> [] -> contains (unwords ws) (unwords (l1 ++ ws ++ l2)).
Proof.
  intros Hws.
  destruct l1 as [|a l1], l2 as [|b l2].
  - rewrite app_nil_r. exists EmptyString, EmptyString.
    now rewrite string_app_nil_r.
  - cbn [app]. rewrite unwords_app by (assumption || discriminate).
    exists EmptyString, (" " +:+ unwords (b :: l2)). reflexivity.
  - rewrite app_nil_r, unwords_app by (assumption || discriminate).
    exists (unwords (a :: l1) +:+ " "), EmptyString.
    now rewrite string_app_nil_r, !string_app_assoc.
  - rewrite unwords_app by (discriminate || now destruct ws).
    rewrite unwords_app by (assumption || discriminate).
    exists (unwords (a :: l1) +:+ " "), (" " +:+ unwords (b :: l2)).
    now rewrite !string_app_assoc.
Qed.

Lemma string_app_inv_last (a b : string) (c : ascii) :
  a +:+ String c EmptyString = b +:+ String c EmptyString -> a = b.
Proof.
  revert b. induction a as [|x a IH]; intros [|y b] H; simpl in H.
  - reflexivity.
  - injection H as _ H. destruct b; discriminate.
  - injection H as _ H. destruct a; discriminate.
  - injection H as -> H. f_equal. now apply IH.
Qed.

Lemma valued_truthy (flag : string) (v : PyVal) :
  truthy v = true -> valued flag v = [flag; text v].
Proof. unfold valued. now intros ->. Qed.

Lemma valued_falsy (flag : string) (v : PyVal) :
  truthy v = false -> valued flag v = [].
Proof. unfold valued. now intros ->. Qed.

(** ** The legacy builders and the join builders *)

(** X1: for every combination of its arguments the legacy init builder
    hands the host the command whose words are [/usr/sbin/ha-cluster-init
    -y] followed by the flags in the order interface [-i], unicast [-u],
    admin IP [-A], sbd [-S] (followed by [-s <sbd_dev>] only then), quiet
    [-q], a flag being left out when its argument is falsy. *)
Theorem ha_cluster_init_flag_order (salt : Salt)
    (interface unicast admin_ip sbd sbd_dev quiet : PyVal) (tr : Trace) :
  let cmd :=
    unwords (ha_cluster_init_spec interface unicast admin_ip
               sbd sbd_dev quiet) in
  _ha_cluster_init salt interface unicast admin_ip sbd sbd_dev quiet tr
  = (Return (retcode salt tr cmd), tr ++ [Exec cmd]).
Proof.
  cbv zeta. now rewrite ha_cluster_init_command.
Qed.

(** X2: the join builders hand the host the words [/usr/sbin/crm cluster
    join -y -c <host>] followed by watchdog [-w], interface [-i], quiet
    [-q] (new generation), and [/usr/sbin/ha-cluster-join -y -c <host>]
    followed by interface [-i], quiet [-q] (legacy), falsy arguments being
    left out. *)
Theorem join_builders_flag_order (salt : Salt)
    (host watchdog interface quiet : PyVal) (tr : Trace) :
  let new_cmd := unwords (crm_join_spec host watchdog interface quiet) in
  let legacy_cmd := unwords (ha_cluster_join_spec host interface quiet) in
  _crm_join salt host watchdog interface quiet tr
    = (Return (retcode salt tr new_cmd), tr ++ [Exec new_cmd])
  /\ _ha_cluster_join salt host interface quiet tr
    = (Return (retcode salt tr legacy_cmd), tr ++ [Exec legacy_cmd]).
Proof.
  cbv zeta. now rewrite crm_join_command, ha_cluster_join_command.
Qed.

(** X3: with the generation flag false, [cluster_init] logs its warning
    whether or not a name or a watchdog was passed, and the command it
    hands to the host, on ha-cluster-init, is built from the other six
    arguments only: the call is the same for every name and watchdog. *)
Theorem cluster_init_legacy_ignores_name_and_watchdog (salt : Salt)
    (name watchdog interface unicast admin_ip sbd sbd_dev quiet : PyVal)
    (tr : Trace) :
  crmsh_version salt = false ->
  let warning :=
    LogWarn "The parameters name and watchdog are not considered!" in
  let cmd :=
    unwords (ha_cluster_init_spec interface unicast admin_ip
               sbd sbd_dev quiet) in
  cluster_init salt name watchdog interface unicast admin_ip sbd sbd_dev
    quiet tr
    = (Return (retcode salt (tr ++ [warning]) cmd), tr ++ [warning; Exec cmd])
  /\ on_binary HA_INIT_COMMAND cmd
  /\ forall name' watchdog' : PyVal,
       cluster_init salt name' watchdog' interface unicast admin_ip sbd
         sbd_dev quiet tr
       = cluster_init salt name watchdog interface unicast admin_ip sbd
           sbd_dev quiet tr.
Proof.
  intros Hflag. cbv zeta. unfold cluster_init. rewrite Hflag.
  split; [|split].
  - unfold bind, LOGGER_warn. rewrite ha_cluster_init_command.
    unfold cmd_retcode. now rewrite <- app_assoc.
  - right.
    exists (unwords (["-y"] ++ valued "-i" interface ++ bare "-u" unicast
                     ++ valued "-A" admin_ip ++ sbd_flags "-S" sbd sbd_dev
                     ++ bare "-q" quiet)).
    unfold ha_cluster_init_spec.
    change [HA_INIT_COMMAND; "-y"] with ([HA_INIT_COMMAND] ++ ["-y"]).
    rewrite <- app_assoc. now rewrite unwords_app by discriminate.
  - reflexivity.
Qed.

Lemma cluster_init_legacy_ignores_name_and_watchdog_witness :
  cluster_init (fixed_salt false 0 None) (PStr "hacluster")
    (PStr "/dev/watchdog") (PStr "eth0") PNone PNone (PBool true)
    (PStr "/dev/sdb") PNone []
  = (Return 0%Z,
     [LogWarn "The parameters name and watchdog are not considered!";
      Exec "/usr/sbin/ha-cluster-init -y -i eth0 -S -s /dev/sdb"]).
Proof.
  exact (proj1 (cluster_init_legacy_ignores_name_and_watchdog
                  (fixed_salt false 0 None) (PStr "hacluster")
                  (PStr "/dev/watchdog") (PStr "eth0") PNone PNone
                  (PBool true) (PStr "/dev/sdb") PNone [] eq_refl)).
Defined.

(** X4: when no watchdog is passed, the two generations of [cluster_join]
    hand the same arguments [-y -c <host> [-i <interface>] [-q]] to their
    binaries: [/usr/sbin/crm cluster join] on the one hand,
    [/usr/sbin/ha-cluster-join] (after the warning) on the other. *)
Theorem cluster_join_generations_share_arguments (new_salt old_salt : Salt)
    (host watchdog interface quiet : PyVal) (tr : Trace) :
  crmsh_version new_salt = true ->
  crmsh_version old_salt = false ->
  truthy watchdog = false ->
  let args :=
    unwords (["-y"; "-c"; text host]
             ++ valued "-i" interface ++ bare "-q" quiet) in
  snd (cluster_join new_salt host watchdog interface quiet tr)
    = tr ++ [Exec (CRM_COMMAND +:+ " cluster join " +:+ args)]
  /\ snd (cluster_join old_salt host watchdog interface quiet tr)
    = tr ++ [LogWarn "The parameter watchdog is not considered!";
             Exec (HA_JOIN_COMMAND +:+ " " +:+ args)].
Proof.
  intros Hnew Hold Hw. cbv zeta. unfold cluster_join.
  rewrite Hnew, Hold.
  unfold bind, LOGGER_warn, _crm_join, _ha_cluster_join, cmd_retcode,
    valued, bare.
  rewrite Hw.
  destruct (truthy interface), (truthy quiet); cbn [snd app];
    (split; [| rewrite <- app_assoc]);
    do 2 f_equal; rewrite ?string_app_assoc; reflexivity.
Qed.

Lemma cluster_join_generations_share_arguments_witness :
  snd (cluster_join (fixed_salt true 0 None)
         (PStr "192.168.1.41") PNone (PStr "eth0") (PBool true) [])
    = [Exec "/usr/sbin/crm cluster join -y -c 192.168.1.41 -i eth0 -q"]
  /\ snd (cluster_join (fixed_salt false 0 None)
            (PStr "192.168.1.41") PNone (PStr "eth0") (PBool true) [])
    = [LogWarn "The parameter watchdog is not considered!";
       Exec "/usr/sbin/ha-cluster-join -y -c 192.168.1.41 -i eth0 -q"].
Proof.
  exact (cluster_join_generations_share_arguments
           (fixed_salt true 0 None) (fixed_salt false 0 None)
           (PStr "192.168.1.41") PNone (PStr "eth0") (PBool true) []
           eq_refl eq_refl eq_refl).
Defined.

(** X5: when sbd is enabled and a device is given, both init builders
    put [-s <sbd_dev>] right after the enablement flag: the new
    generation command contains [--enable-sbd -s <sbd_dev>] and the legacy
    one [-S -s <sbd_dev>]; when sbd is enabled without a device the
    enablement flag is emitted alone (diskless sbd). *)
Theorem sbd_device_follows_enable_flag (salt : Salt)
    (name watchdog interface unicast admin_ip sbd sbd_dev quiet : PyVal)
    (tr : Trace) :
  truthy sbd = true ->
  exists new_cmd legacy_cmd : string,
    snd (_crm_init salt name watchdog interface unicast admin_ip sbd sbd_dev
           quiet tr) = tr ++ [Exec new_cmd]
    /\ snd (_ha_cluster_init salt interface unicast admin_ip sbd sbd_dev
              quiet tr) = tr ++ [Exec legacy_cmd]
    /\ (truthy sbd_dev = true ->
        contains ("--enable-sbd -s " +:+ text sbd_dev) new_cmd
        /\ contains ("-S -s " +:+ text sbd_dev) legacy_cmd)
    /\ (truthy sbd_dev = false ->
        new_cmd
        = unwords ([CRM_COMMAND; "cluster"; "init"; "-y"; "-n"; text name]
                   ++ valued "-w" watchdog ++ valued "-i" interface
                   ++ bare "-u" unicast ++ valued "-A" admin_ip
                   ++ ["--enable-sbd"] ++ bare "-q" quiet)
        /\ legacy_cmd
        = unwords ([HA_INIT_COMMAND; "-y"]
                   ++ valued "-i" interface ++ bare "-u" unicast
                   ++ valued "-A" admin_ip ++ ["-S"] ++ bare "-q" quiet)).
Proof.
  intros Hsbd.
  exists (unwords (crm_init_spec name watchdog interface unicast admin_ip
                     sbd sbd_dev quiet)),
         (unwords (ha_cluster_init_spec interface unicast admin_ip
                     sbd sbd_dev quiet)).
  rewrite crm_init_command, ha_cluster_init_command.
  split; [reflexivity|]. split; [reflexivity|].
  unfold crm_init_spec, ha_cluster_init_spec, sbd_flags. rewrite Hsbd.
  split; intros Hdev.
  - rewrite (valued_truthy "-s" sbd_dev Hdev). split.
    + change ("--enable-sbd -s " +:+ text sbd_dev)
        with (unwords ["--enable-sbd"; "-s"; text sbd_dev]).
      rewrite !(app_assoc _ _ (["--enable-sbd"; "-s"; text sbd_dev]
                               ++ bare "-q" quiet)).
      apply contains_unwords_infix. discriminate.
    + change ("-S -s " +:+ text sbd_dev)
        with (unwords ["-S"; "-s"; text sbd_dev]).
      rewrite !(app_assoc _ _ (["-S"; "-s"; text sbd_dev]
                               ++ bare "-q" quiet)).
      apply contains_unwords_infix. discriminate.
  - rewrite (valued_falsy "-s" sbd_dev Hdev). split; reflexivity.
Qed.

Lemma sbd_device_follows_enable_flag_witness :
  exists new_cmd legacy_cmd : string,
    snd (_crm_init (fixed_salt true 0 None) (PStr "hacluster") PNone
           (PStr "eth0") PNone PNone (PBool true) (PStr "/dev/sdb")
           (PBool true) []) = [Exec new_cmd]
    /\ snd (_ha_cluster_init (fixed_salt false 0 None)
              (PStr "eth0") PNone PNone (PBool true) (PStr "/dev/sdb")
              (PBool true) []) = [Exec legacy_cmd]
    /\ contains "--enable-sbd -s /dev/sdb" new_cmd
    /\ contains "-S -s /dev/sdb" legacy_cmd.
Proof.
  destruct (sbd_device_follows_enable_flag (fixed_salt true 0 None)
              (PStr "hacluster") PNone (PStr "eth0") PNone PNone
              (PBool true) (PStr "/dev/sdb") (PBool true) [] eq_refl)
    as [new_cmd [legacy_cmd [A [B [C _]]]]].
  exists new_cmd, legacy_cmd.
  split; [exact A|]. split; [exact B|]. exact (C eq_refl).
Defined.

(** ** Removing a node, running a statement *)

(** X6: [cluster_remove] hands the host the words [/usr/sbin/crm cluster
    remove -y -c <host>] followed by [--force] when force is truthy and
    [-q] when quiet is truthy, in this order; it has a single path: the
    generation flag changes nothing and no warning is logged. *)
Theorem cluster_remove_command (salt : Salt) (host force quiet : PyVal)
    (tr : Trace) :
  let cmd :=
    unwords ([CRM_COMMAND; "cluster"; "remove"; "-y"; "-c"; text host]
             ++ bare "--force" force ++ bare "-q" quiet) in
  cluster_remove salt host force quiet tr
    = (Return (retcode salt tr cmd), tr ++ [Exec cmd])
  /\ on_binary CRM_COMMAND cmd
  /\ forall generation : bool,
       snd (cluster_remove
              (CrmshmodActivation.set_crmsh_version generation salt)
              host force quiet tr)
       = tr ++ [Exec cmd].
Proof.
  cbv zeta.
  assert (E : forall s : Salt,
             cluster_remove s host force quiet
             = cmd_retcode s
                 (unwords ([CRM_COMMAND; "cluster"; "remove"; "-y"; "-c";
                            text host]
                           ++ bare "--force" force ++ bare "-q" quiet))).
  { intros s. unfold cluster_remove, bare.
    destruct (truthy force), (truthy quiet); same_command. }
  split; [|split].
  - now rewrite E.
  - right.
    exists (unwords (["cluster"; "remove"; "-y"; "-c"; text host]
                     ++ bare "--force" force ++ bare "-q" quiet)).
    reflexivity.
  - intros generation. now rewrite E.
Qed.

(** X7: [cluster_run] places the text of the statement between two
    double quotes after [/usr/sbin/crm cluster run ], unchanged: nothing
    is escaped, not even a double quote inside the statement, so the
    statement can be read back from the command, and two calls hand over
    the same command only for the same statement text. *)
Theorem cluster_run_verbatim (salt : Salt) (cmd : PyVal) (tr : Trace) :
  let command :=
    "/usr/sbin/crm cluster run " +:+ dquote +:+ text cmd +:+ dquote in
  cluster_run salt cmd tr
    = (Return (retcode salt tr command), tr ++ [Exec command])
  /\ on_binary CRM_COMMAND command
  /\ forall cmd' : PyVal,
       snd (cluster_run salt cmd' tr) = snd (cluster_run salt cmd tr) ->
       text cmd' = text cmd.
Proof.
  cbv zeta. split; [|split].
  - unfold cluster_run, cmd_retcode. now rewrite ?string_app_assoc.
  - right. exists ("cluster run " +:+ dquote +:+ text cmd +:+ dquote).
    reflexivity.
  - intros cmd' H. unfold cluster_run, cmd_retcode in H. cbn [snd] in H.
    apply app_inv_head in H. injection H as H.
    unfold dquote in H. now apply string_app_inv_last in H.
Qed.

Lemma cluster_run_verbatim_witness :
  snd (cluster_run (fixed_salt true 0 None) (PStr "pwd") [])
    = [Exec ("/usr/sbin/crm cluster run " +:+ dquote +:+ "pwd" +:+ dquote)]
  /\ text (PInt 7) = text (PStr "7").
Proof.
  split; [reflexivity|].
  exact (proj2 (proj2 (cluster_run_verbatim (fixed_salt true 0 None)
                         (PStr "7") []))
           (PInt 7) eq_refl).
Defined.

Example cluster_run_quote_not_escaped :
  snd (cluster_run (fixed_salt true 0 None)
         (PStr ("echo " +:+ dquote +:+ "; reboot; " +:+ dquote)) [])
  = [Exec ("/usr/sbin/crm cluster run " +:+ dquote +:+ "echo " +:+ dquote
           +:+ "; reboot; " +:+ dquote +:+ dquote)].
Proof. reflexivity. Qed.

(** ** One call, one command *)

Lemma one_command_plain (salt : Salt) (cmd : string) :
  (on_binary CRM_COMMAND cmd \/ on_binary HA_INIT_COMMAND cmd
   \/ on_binary HA_JOIN_COMMAND cmd) ->
  one_command salt (cmd_retcode salt cmd).
Proof.
  intros Hbin tr. exists [], cmd. cbn [fmap list_fmap app length].
  rewrite app_nil_r. split; [reflexivity|]. split; [lia | exact Hbin].
Qed.

Lemma one_command_warned (salt : Salt) (msg cmd : string) :
  (on_binary CRM_COMMAND cmd \/ on_binary HA_INIT_COMMAND cmd
   \/ on_binary HA_JOIN_COMMAND cmd) ->
  one_command salt (LOGGER_warn msg ;;; cmd_retcode salt cmd).
Proof.
  intros Hbin tr. exists [msg], cmd.
  unfold bind, LOGGER_warn, cmd_retcode. cbn [fmap list_fmap app length].
  rewrite <- app_assoc. split; [reflexivity|]. split; [lia | exact Hbin].
Qed.

Lemma on_binary_unwords (bin : string) (w : string) (ws : list string) :
  on_binary bin (unwords (bin :: w :: ws)).
Proof.
  right. exists (unwords (w :: ws)). reflexivity.
Qed.

(** X8: every operation of the module that does not raise hands exactly
    one command to the host, on [/usr/sbin/crm], [/usr/sbin/ha-cluster-init]
    or [/usr/sbin/ha-cluster-join], after at most one warning, and returns
    the exit code the host gives for that command, whatever it is.  This
    holds for the five fixed commands, for [cluster_run], [cluster_init],
    [cluster_join], [cluster_remove] and [configure_load] on all arguments,
    and for [wait_for_startup] unless the timeout is truthy and no
    integer. *)
Theorem one_command_per_call (salt : Salt) :
  one_command salt (status salt)
  /\ one_command salt (cluster_status salt)
  /\ one_command salt (cluster_start salt)
  /\ one_command salt (cluster_stop salt)
  /\ one_command salt (cluster_health salt)
  /\ (forall cmd, one_command salt (cluster_run salt cmd))
  /\ (forall name watchdog interface unicast admin_ip sbd sbd_dev quiet,
        one_command salt
          (cluster_init salt name watchdog interface unicast admin_ip
             sbd sbd_dev quiet))
  /\ (forall host watchdog interface quiet,
        one_command salt (cluster_join salt host watchdog interface quiet))
  /\ (forall host force quiet,
        one_command salt (cluster_remove salt host force quiet))
  /\ (forall method url is_xml,
        one_command salt (configure_load salt method url is_xml))
  /\ (forall timeout,
        truthy timeout = false \/ isinstance_int timeout = true ->
        one_command salt (wait_for_startup salt timeout)).
Proof.
  assert (Hcrm : forall rest, on_binary CRM_COMMAND
                                (CRM_COMMAND +:+ " " +:+ rest))
    by (intros rest; right; now exists rest).
  repeat split.
  - apply one_command_plain. left. apply (Hcrm "status").
  - apply one_command_plain. left. apply (Hcrm "cluster status").
  - apply one_command_plain. left. apply (Hcrm "cluster start").
  - apply one_command_plain. left. apply (Hcrm "cluster stop").
  - apply one_command_plain. left. apply (Hcrm "cluster health").
  - intros cmd. apply one_command_plain. left.
    apply (Hcrm ("cluster run " +:+ dquote +:+ text cmd +:+ dquote)).
  - intros. unfold cluster_init. destruct (crmsh_version salt).
    + rewrite crm_init_command. apply one_command_plain. left.
      apply on_binary_unwords.
    + rewrite ha_cluster_init_command. apply one_command_warned.
      right; left. apply on_binary_unwords.
  - intros. unfold cluster_join. destruct (crmsh_version salt).
    + rewrite crm_join_command. apply one_command_plain. left.
      apply on_binary_unwords.
    + rewrite ha_cluster_join_command. apply one_command_warned.
      right; right. apply on_binary_unwords.
  - intros host force quiet. unfold cluster_remove.
    destruct (truthy force), (truthy quiet);
      apply one_command_plain; left;
      rewrite ?string_app_assoc; apply Hcrm.
  - intros method url is_xml. unfold configure_load.
    apply one_command_plain. left. apply Hcrm.
  - intros timeout Hok. unfold wait_for_startup.
    destruct (truthy timeout) eqn:Ht.
    + destruct Hok as [Hok|Hok]; [discriminate|]. rewrite Hok.
      apply one_command_plain. left. rewrite ?string_app_assoc. apply Hcrm.
    + apply one_command_plain. left. apply Hcrm.
Qed.

(** ** Timeouts *)

(** X9: [wait_for_startup] accepts every integer and checks no range:
    a non-zero integer, negative ones included, is appended in decimal as
    the last argument, and zero is treated like an absent timeout; a
    boolean passes the integer check as well, [True] being appended as
    the word [True]. *)
Theorem wait_for_startup_integers (salt : Salt) (z : Z) (tr : Trace) :
  let base := "/usr/sbin/crm cluster wait_for_startup" in
  let cmd :=
    if (z =? 0)%Z then base
    else base +:+ " " +:+ NilZero.string_of_int (Z.to_int z) in
  wait_for_startup salt (PInt z) tr
    = (Return (retcode salt tr cmd), tr ++ [Exec cmd])
  /\ wait_for_startup salt (PBool true) tr
    = (Return (retcode salt tr (base +:+ " True")),
       tr ++ [Exec (base +:+ " True")])
  /\ wait_for_startup salt PNone tr
    = (Return (retcode salt tr base), tr ++ [Exec base]).
Proof.
  cbv zeta. split; [|split; reflexivity].
  unfold wait_for_startup, bind, ret, cmd_retcode. cbn [truthy isinstance_int].
  destruct (z =? 0)%Z; cbn [negb text]; now rewrite ?string_app_assoc.
Qed.

Example wait_for_startup_negative :
  wait_for_startup (fixed_salt true 0 None) (PInt (-5)) []
  = (Return 0%Z, [Exec "/usr/sbin/crm cluster wait_for_startup -5"]).
Proof. reflexivity. Qed.

(** X10: [wait_for_startup] raises exactly when the timeout is truthy and
    no integer; it then raises [SaltInvocationError] and leaves the trace
    as it was.  In every other case it returns the exit code of the one
    command it handed to the host. *)
Theorem wait_for_startup_raises_iff (salt : Salt) (timeout : PyVal)
    (tr : Trace) :
  match wait_for_startup salt timeout tr with
  | (Raise e, tr') =>
      truthy timeout = true /\ isinstance_int timeout = false
      /\ e = SaltInvocationError "timeout must be integer type"
      /\ tr' = tr
  | (Return code, tr') =>
      (truthy timeout = false \/ isinstance_int timeout = true)
      /\ exists cmd, tr' = tr ++ [Exec cmd] /\ code = retcode salt tr cmd
  end.
Proof.
  unfold wait_for_startup, bind, ret, raise, cmd_retcode.
  destruct (truthy timeout); [destruct (isinstance_int timeout)|];
    cbn [negb]; eauto 10.
Qed.

Lemma one_command_per_call_witness :
  one_command (fixed_salt true 0 None)
    (wait_for_startup (fixed_salt true 0 None) (PInt 30)).
Proof.
  apply (one_command_per_call (fixed_salt true 0 None)).
  right. reflexivity.
Defined.

(** * Activation of the cluster shell module *)

Import CrmshmodActivation.

(** X11: the module loads exactly when the crm binary is found and either
    the installed crmsh version compares greater than or equal to 3.0.0 or
    the ha-cluster-init binary is found as well.  When it loads it answers
    its virtual name [crm] and records in [crmsh.version] whether the
    version reached the threshold, leaving the other entries of the
    dictionary alone; when it refuses to load the dictionary is unchanged. *)
Theorem crm_virtual_loads_iff (loader : Loader) (salt : Salt) :
  let cmp :=
    pkg_version_cmp loader (pkg_version loader CRMSH) CRM_NEW_VERSION in
  let answer := fst (fst (__virtual__ loader salt)) in
  let salt' := snd (fst (__virtual__ loader salt)) in
  (answer = Loaded "crm" <->
     truthy (which loader CRM_COMMAND) = true
     /\ ((0 <= cmp)%Z \/ truthy (which loader HA_INIT_COMMAND) = true))
  /\ (answer = Loaded "crm" ->
      crmsh_version salt' = (0 <=? cmp)%Z
      /\ retcode salt' = retcode salt
      /\ extract_sapcar_file salt' = extract_sapcar_file salt)
  /\ (answer <> Loaded "crm" ->
      salt' = salt /\ exists reason, answer = NotLoaded reason).
Proof.
  cbv zeta. unfold __virtual__.
  destruct (truthy (which loader CRM_COMMAND)); cbn [fst snd].
  - destruct (Z.leb_spec 0 (pkg_version_cmp loader (pkg_version loader CRMSH)
                              CRM_NEW_VERSION)) as [Hge|Hlt];
      cbn [negb andb fst snd].
    + split; [|split].
      * split; [intros _; split; [reflexivity | now left] | reflexivity].
      * intros _. repeat split.
      * intros H. now destruct H.
    + destruct (truthy (which loader HA_INIT_COMMAND)); cbn [negb fst snd].
      * split; [|split].
        -- split; [intros _; split; [reflexivity | now right] | reflexivity].
        -- intros _. repeat split.
        -- intros H. now destruct H.
      * split; [|split].
        -- split; [discriminate|]. intros [_ [H|H]]; [lia | discriminate].
        -- discriminate.
        -- intros _. split; [reflexivity | eauto].
  - split; [|split].
    + split; [discriminate | intros [H _]; discriminate].
    + discriminate.
    + intros _. split; [reflexivity | eauto].
Qed.

Lemma crm_virtual_loads_iff_witness :
  fst (fst (__virtual__
              (fixed_loader [CRM_COMMAND; HA_INIT_COMMAND] "2.3.2" (-1))
              (fixed_salt true 0 None)))
    = Loaded "crm"
  /\ crmsh_version
       (snd (fst (__virtual__
                    (fixed_loader [CRM_COMMAND; HA_INIT_COMMAND] "2.3.2" (-1))
                    (fixed_salt true 0 None))))
     = false.
Proof.
  split; [reflexivity|].
  exact (proj1 (proj1 (proj2 (crm_virtual_loads_iff
                                (fixed_loader [CRM_COMMAND; HA_INIT_COMMAND]
                                   "2.3.2" (-1))
                                (fixed_salt true 0 None)))
                  eq_refl)).
Defined.

(** X12: the two refusals.  When the crm binary is not found the module
    answers that the crm package is not available, logs nothing and does
    not depend on what the package manager would say; when it is found
    but the version is below the threshold and ha-cluster-init is missing,
    it answers that the ha-cluster-init package is not available, after
    logging the version and that ha-cluster will be used. *)
Theorem crm_virtual_refusals (loader : Loader) (salt : Salt) :
  (truthy (which loader CRM_COMMAND) = false ->
     forall (version : string -> string) (cmp : string -> string -> Z),
       __virtual__ {| which := which loader; pkg_version := version;
                      pkg_version_cmp := cmp |} salt
       = (NotLoaded
            ("The crmsh execution module failed to load: "
             +:+ "the crm package is not available."),
          salt, []))
  /\ (truthy (which loader CRM_COMMAND) = true ->
      (pkg_version_cmp loader (pkg_version loader CRMSH) CRM_NEW_VERSION < 0)%Z ->
      truthy (which loader HA_INIT_COMMAND) = false ->
      __virtual__ loader salt
      = (NotLoaded
           ("The crmsh execution module failed to load: "
            +:+ "the ha-cluster-init package is not available."),
         salt,
         ["crmsh version: " +:+ pkg_version loader CRMSH;
          "ha-cluster will be used"])).
Proof.
  split.
  - intros Hcrm version cmp. unfold __virtual__. cbn [which].
    now rewrite Hcrm.
  - intros Hcrm Hlt Hinit. unfold __virtual__. rewrite Hcrm, Hinit.
    apply Z.leb_gt in Hlt. now rewrite Hlt.
Qed.

Lemma crm_virtual_refusals_witness :
  __virtual__ (fixed_loader [] "3.0.1" 1) (fixed_salt false 0 None)
    = (NotLoaded
         "The crmsh execution module failed to load: the crm package is not available.",
       fixed_salt false 0 None, [])
  /\ __virtual__ (fixed_loader [CRM_COMMAND] "2.3.2" (-1))
       (fixed_salt true 0 None)
     = (NotLoaded
          "The crmsh execution module failed to load: the ha-cluster-init package is not available.",
        fixed_salt true 0 None,
        ["crmsh version: 2.3.2"; "ha-cluster will be used"]).
Proof.
  split.
  - exact (proj1 (crm_virtual_refusals (fixed_loader [] "3.0.1" 1)
                    (fixed_salt false 0 None))
             eq_refl (fun _ => "3.0.1") (fun _ _ => 1%Z)).
  - exact (proj2 (crm_virtual_refusals (fixed_loader [CRM_COMMAND] "2.3.2" (-1))
                    (fixed_salt true 0 None))
             eq_refl eq_refl eq_refl).
Defined.

(** X13: activation and dispatch fit together for [cluster_init]: once
    the module has loaded, [cluster_init] run with the dictionary the
    activation left behind hands the host a command on a binary that the
    activation found on the machine: crm when the version reached the
    threshold, ha-cluster-init otherwise. *)
Theorem activation_then_cluster_init (loader : Loader) (salt : Salt)
    (name watchdog interface unicast admin_ip sbd sbd_dev quiet : PyVal)
    (tr : Trace) :
  fst (fst (__virtual__ loader salt)) = Loaded "crm" ->
  let salt' := snd (fst (__virtual__ loader salt)) in
  let bin :=
    if (0 <=? pkg_version_cmp loader (pkg_version loader CRMSH)
                CRM_NEW_VERSION)%Z
    then CRM_COMMAND else HA_INIT_COMMAND in
  truthy (which loader bin) = true
  /\ exists (warnings : list string) (cmd : string),
       snd (cluster_init salt' name watchdog interface unicast admin_ip
              sbd sbd_dev quiet tr)
       = tr ++ (LogWarn <$> warnings) ++ [Exec cmd]
       /\ on_binary bin cmd.
Proof.
  cbv zeta. unfold __virtual__, cluster_init.
  destruct (truthy (which loader CRM_COMMAND)) eqn:Hcrm; cbn [fst snd];
    [|discriminate].
  destruct (0 <=? pkg_version_cmp loader (pkg_version loader CRMSH)
                    CRM_NEW_VERSION)%Z; cbn [negb andb fst snd].
  - intros _. split; [exact Hcrm|].
    exists [], (unwords (crm_init_spec name watchdog interface unicast
                           admin_ip sbd sbd_dev quiet)).
    cbn [crmsh_version set_crmsh_version].
    rewrite crm_init_command. split; [reflexivity|].
    apply on_binary_unwords.
  - destruct (truthy (which loader HA_INIT_COMMAND)) eqn:Hinit;
      cbn [negb fst snd]; [|discriminate].
    intros _. split; [first [exact Hinit | reflexivity]|].
    exists ["The parameters name and watchdog are not considered!"],
           (unwords (ha_cluster_init_spec interface unicast admin_ip
                       sbd sbd_dev quiet)).
    cbn [crmsh_version set_crmsh_version].
    unfold bind, LOGGER_warn. rewrite ha_cluster_init_command.
    unfold cmd_retcode. cbn [snd fmap list_fmap].
    rewrite <- app_assoc. split; [reflexivity|].
    apply on_binary_unwords.
Qed.

Lemma activation_then_cluster_init_witness :
  exists (warnings : list string) (cmd : string),
    snd (cluster_init
           (snd (fst (__virtual__
                        (fixed_loader [CRM_COMMAND; HA_INIT_COMMAND]
                           "2.3.2" (-1))
                        (fixed_salt true 0 None))))
           (PStr "hacluster") PNone PNone PNone PNone PNone PNone PNone [])
    = [] ++ (LogWarn <$> warnings) ++ [Exec cmd]
    /\ on_binary HA_INIT_COMMAND cmd.
Proof.
  exact (proj2 (activation_then_cluster_init
                  (fixed_loader [CRM_COMMAND; HA_INIT_COMMAND] "2.3.2" (-1))
                  (fixed_salt true 0 None)
                  (PStr "hacluster") PNone PNone PNone PNone PNone PNone
                  PNone [] eq_refl)).
Defined.

(** X14: the activation never looks for the ha-cluster-join binary:
    whatever [which] answers for that path, on every loader and
    dictionary, the result of [__virtual__] is the same.  Yet when the
    module has loaded with a version below the threshold, [cluster_join]
    hands the host a command on that binary. *)
Theorem legacy_join_binary_never_checked (loader : Loader) (salt : Salt)
    (host watchdog interface quiet : PyVal) (tr : Trace) :
  (forall found : PyVal,
     __virtual__
       {| which := fun path =>
            if String.eqb path HA_JOIN_COMMAND then found
            else which loader path;
          pkg_version := pkg_version loader;
          pkg_version_cmp := pkg_version_cmp loader |} salt
     = __virtual__ loader salt)
  /\ (fst (fst (__virtual__ loader salt)) = Loaded "crm" ->
      (pkg_version_cmp loader (pkg_version loader CRMSH) CRM_NEW_VERSION
       < 0)%Z ->
      exists cmd : string,
        snd (cluster_join (snd (fst (__virtual__ loader salt)))
               host watchdog interface quiet tr)
        = tr ++ [LogWarn "The parameter watchdog is not considered!";
                 Exec cmd]
        /\ on_binary HA_JOIN_COMMAND cmd).
Proof.
  split.
  - intros found. unfold __virtual__. cbn [which pkg_version pkg_version_cmp].
    reflexivity.
  - intros Hloaded Hlt.
    apply Z.leb_gt in Hlt. revert Hloaded.
    unfold __virtual__, cluster_join. rewrite Hlt.
    destruct (truthy (which loader CRM_COMMAND)); cbn [fst snd negb andb];
      [|discriminate].
    destruct (truthy (which loader HA_INIT_COMMAND)); cbn [fst snd negb];
      [|discriminate].
    intros _. cbn [crmsh_version set_crmsh_version].
    exists (unwords (ha_cluster_join_spec host interface quiet)).
    unfold bind, LOGGER_warn. rewrite ha_cluster_join_command.
    unfold cmd_retcode. cbn [snd]. rewrite <- app_assoc.
    split; [reflexivity | apply on_binary_unwords].
Qed.

Lemma legacy_join_binary_never_checked_witness :
  truthy (which (fixed_loader [CRM_COMMAND; HA_INIT_COMMAND] "2.3.2" (-1))
            HA_JOIN_COMMAND) = false
  /\ exists cmd : string,
       snd (cluster_join
              (snd (fst (__virtual__
                           (fixed_loader [CRM_COMMAND; HA_INIT_COMMAND]
                              "2.3.2" (-1))
                           (fixed_salt true 0 None))))
              (PStr "192.168.1.41") PNone PNone PNone [])
       = [] ++ [LogWarn "The parameter watchdog is not considered!"; Exec cmd]
       /\ on_binary HA_JOIN_COMMAND cmd.
Proof.
  split; [reflexivity|].
  exact (proj2 (legacy_join_binary_never_checked
                  (fixed_loader [CRM_COMMAND; HA_INIT_COMMAND] "2.3.2" (-1))
                  (fixed_salt true 0 None)
                  (PStr "192.168.1.41") PNone PNone PNone [])
           eq_refl eq_refl).
Defined.

(** * Further properties of the archive extraction state *)

(** ** Parent directories *)

Lemma contains_sep_head (c : ascii) (s : string) :
  Posixpath.is_sep c = true -> contains "/" (String c s).
Proof.
  unfold Posixpath.is_sep. intros H. apply Ascii.eqb_eq in H. subst c.
  exists EmptyString, s. reflexivity.
Qed.

Lemma contains_tail (sub s : string) (c : ascii) :
  contains sub s -> contains sub (String c s).
Proof.
  intros [pre [post ->]]. exists (String c pre), post. reflexivity.
Qed.

Lemma rfind_sep_from_none (pos last : Z) (p : string) :
  ~ contains "/" p -> Posixpath.rfind_sep_from pos last p = last.
Proof.
  revert pos last. induction p as [|c p IH]; intros pos last Hno; simpl.
  - reflexivity.
  - destruct (Posixpath.is_sep c) eqn:Hc.
    + destruct Hno. now apply contains_sep_head.
    + apply IH. intros H. apply Hno. now apply contains_tail.
Qed.

Lemma rfind_sep_from_app (pos last : Z) (a b : string) :
  Posixpath.rfind_sep_from pos last (a +:+ b)
  = Posixpath.rfind_sep_from (pos + Z.of_nat (String.length a))
      (Posixpath.rfind_sep_from pos last a) b.
Proof.
  revert pos last. induction a as [|c a IH]; intros pos last.
  - simpl. now rewrite Z.add_0_r.
  - cbn [String.append Posixpath.rfind_sep_from String.length].
    rewrite IH. f_equal. lia.
Qed.

Lemma substring_prefix (a b : string) :
  String.substring 0 (String.length a) (a +:+ b) = a.
Proof.
  induction a as [|c a IH]; simpl.
  - now destruct b.
  - now rewrite IH.
Qed.

Lemma string_length_app (a b : string) :
  String.length (a +:+ b) = String.length a + String.length b.
Proof.
  induction a as [|c a IH]; simpl; [reflexivity | now rewrite IH].
Qed.

Lemma all_sep_with_other (a b : string) (c : ascii) :
  Posixpath.is_sep c = false ->
  Posixpath.all_sep (a +:+ String c b) = false.
Proof.
  intros Hc. induction a as [|x a IH]; simpl.
  - now rewrite Hc.
  - rewrite IH. apply andb_false_r.
Qed.

Lemma rstrip_sep_one (a : string) (c : ascii) :
  Posixpath.is_sep c = false ->
  Posixpath.rstrip_sep (a +:+ String c "/") = a +:+ String c EmptyString.
Proof.
  intros Hc. induction a as [|x a IH].
  - simpl. now rewrite Hc.
  - cbn [String.append Posixpath.rstrip_sep]. rewrite IH.
    destruct a; reflexivity.
Qed.

(** The parent directory of [dir/file], for a directory that does not end
    in a slash and a file name without slash, is [dir]. *)
Lemma dirname_dir_file (dir file : string) (c : ascii) :
  Posixpath.is_sep c = false ->
  ~ contains "/" file ->
  Posixpath.dirname (dir +:+ String c EmptyString +:+ "/" +:+ file)
  = dir +:+ String c EmptyString.
Proof.
  intros Hc Hfile.
  set (d := dir +:+ String c EmptyString).
  assert (Hrfind : Posixpath.rfind_sep (d +:+ "/" +:+ file)
                   = Z.of_nat (String.length d)).
  { unfold Posixpath.rfind_sep. rewrite rfind_sep_from_app.
    cbn [String.append Posixpath.rfind_sep_from Posixpath.is_sep].
    change (Ascii.eqb "/" "/") with true. cbv iota.
    now rewrite rfind_sep_from_none. }
  replace (dir +:+ String c EmptyString +:+ "/" +:+ file)
    with (d +:+ "/" +:+ file)
    by (unfold d; now rewrite string_app_assoc).
  unfold Posixpath.dirname.
  rewrite Hrfind.
  replace (Z.to_nat (Z.of_nat (String.length d) + 1))
    with (String.length (d +:+ "/"))
    by (rewrite string_length_app; simpl; lia).
  replace (d +:+ "/" +:+ file) with ((d +:+ "/") +:+ file)
    by now rewrite string_app_assoc.
  rewrite substring_prefix. cbv zeta.
  assert (Hhead : d +:+ "/" = dir +:+ String c "/")
    by (unfold d; now rewrite string_app_assoc).
  rewrite Hhead, (all_sep_with_other dir "/" c Hc), rstrip_sep_one by exact Hc.
  destruct dir; reflexivity.
Qed.

(** A path without slash has the empty parent directory. *)
Lemma dirname_bare_file (file : string) :
  ~ contains "/" file -> Posixpath.dirname file = EmptyString.
Proof.
  intros Hfile. unfold Posixpath.dirname, Posixpath.rfind_sep.
  rewrite rfind_sep_from_none by exact Hfile.
  now destruct file.
Qed.

(** ** What the state does with its delegate *)

(** X15: an exception of the extraction delegate other than
    [CommandExecutionError] is not caught: outside dry-run mode
    [sar_file_extracted] raises it as it is and returns no record. *)
Theorem sar_file_extracted_other_exception (salt : Salt) (opts : Opts)
    (name sapcar_exe : PyVal) (sar_file : string)
    (output_dir options : PyVal) (tr : Trace) (e : Exn) :
  truthy (test opts) = false ->
  extract_sapcar_file salt tr sapcar_exe sar_file output_dir options
    = Some e ->
  (forall msg, e <> CommandExecutionError msg) ->
  sar_file_extracted salt opts name sapcar_exe sar_file output_dir options tr
  = (Raise e, tr ++ [ExtractSapcar sapcar_exe sar_file output_dir options]).
Proof.
  intros Htest Hraise Hother.
  unfold sar_file_extracted. rewrite Htest.
  unfold try_except_CommandExecutionError, bind, saputils_extract_sapcar_file.
  rewrite Hraise.
  destruct e as [msg|msg|msg]; [reflexivity | now destruct (Hother msg)
                               | reflexivity].
Qed.

Lemma sar_file_extracted_other_exception_witness :
  sar_file_extracted
    (fixed_salt true 0 (Some (OtherException "KeyError")))
    (test_mode (PBool false))
    (PStr "extract_sap_car_file") (PStr "./SAPCAR.exe")
    "home/sapuser/saprouter_600-80003478.sar" PNone PNone []
  = (Raise (OtherException "KeyError"),
     [ExtractSapcar (PStr "./SAPCAR.exe")
        "home/sapuser/saprouter_600-80003478.sar" PNone PNone]).
Proof.
  apply (sar_file_extracted_other_exception
           (fixed_salt true 0 (Some (OtherException "KeyError")))
           (test_mode (PBool false))); [reflexivity | reflexivity |].
  intros msg. discriminate.
Defined.

(** X16: whatever the delegate answers, [sar_file_extracted] touches the
    host in one way only: outside dry-run mode it calls the extraction
    delegate exactly once, with [sapcar_exe], [sar_file], [output_dir] and
    [options] as they were passed (an absent [output_dir] is passed on as
    absent, not replaced by the parent directory); in dry-run mode it does
    nothing.  It never runs a command and never logs. *)
Theorem sar_file_extracted_effects (salt : Salt) (opts : Opts)
    (name sapcar_exe : PyVal) (sar_file : string)
    (output_dir options : PyVal) (tr : Trace) :
  snd (sar_file_extracted salt opts name sapcar_exe sar_file output_dir
         options tr)
  = if truthy (test opts) then tr
    else tr ++ [ExtractSapcar sapcar_exe sar_file output_dir options].
Proof.
  unfold sar_file_extracted.
  destruct (truthy (test opts)); [reflexivity|].
  unfold try_except_CommandExecutionError, bind, saputils_extract_sapcar_file.
  destruct (extract_sapcar_file salt tr sapcar_exe sar_file output_dir options)
    as [[msg|msg|msg]|]; reflexivity.
Qed.

(** X17: the changes a dry run announces are the changes of the real run
    when an output directory is given; when none is given the dry run
    announces [output_dir: None] while the successful real run reports the
    parent directory of [sar_file], so the two differ. *)
Theorem dry_run_announces_changes (salt : Salt) (dry real : Opts)
    (name sapcar_exe : PyVal) (sar_file : string)
    (output_dir options : PyVal) (tr : Trace) :
  truthy (test dry) = true ->
  truthy (test real) = false ->
  extract_sapcar_file salt tr sapcar_exe sar_file output_dir options = None ->
  exists announced done : StateRet,
    fst (sar_file_extracted salt dry name sapcar_exe sar_file output_dir
           options tr) = Return announced
    /\ fst (sar_file_extracted salt real name sapcar_exe sar_file output_dir
              options tr) = Return done
    /\ (truthy output_dir = true -> changes announced = changes done)
    /\ (output_dir = PNone ->
        changes announced !! "output_dir" = Some PNone
        /\ changes done !! "output_dir"
           = Some (PStr (Posixpath.dirname sar_file))
        /\ changes announced <> changes done).
Proof.
  intros Hdry Hreal Hok.
  unfold sar_file_extracted. rewrite Hdry, Hreal.
  unfold try_except_CommandExecutionError, bind, saputils_extract_sapcar_file.
  rewrite Hok. cbv beta iota zeta. unfold ret. cbn [fst].
  eexists. eexists. split; [reflexivity|]. split; [reflexivity|].
  unfold set_result, set_comment, set_change.
  cbn [Saputilsmod.name changes result comment].
  split.
  - intros Hdir. rewrite Hdir.
    cbn [Saputilsmod.name changes result comment]. reflexivity.
  - intros ->. cbn [truthy Saputilsmod.name changes result comment].
    rewrite !lookup_insert_eq. split; [reflexivity|]. split; [reflexivity|].
    intros H.
    assert (H' : (<["output_dir" := PNone]> (∅ : gmap string PyVal))
                   !! "output_dir"
                 = (<["output_dir" := PStr (Posixpath.dirname sar_file)]>
                      (∅ : gmap string PyVal)) !! "output_dir")
      by now rewrite H.
    rewrite !lookup_insert_eq in H'. discriminate.
Qed.

Lemma dry_run_announces_changes_witness :
  exists announced done : StateRet,
    fst (sar_file_extracted (fixed_salt true 0 None) (test_mode (PBool true))
           (PStr "extract_sap_car_file") (PStr "./SAPCAR.exe")
           "home/sapuser/saprouter_600-80003478.sar" PNone PNone [])
      = Return announced
    /\ fst (sar_file_extracted (fixed_salt true 0 None)
              (test_mode (PBool false))
              (PStr "extract_sap_car_file") (PStr "./SAPCAR.exe")
              "home/sapuser/saprouter_600-80003478.sar" PNone PNone [])
      = Return done
    /\ changes announced !! "output_dir" = Some PNone
    /\ changes done !! "output_dir" = Some (PStr "home/sapuser").
Proof.
  destruct (dry_run_announces_changes (fixed_salt true 0 None)
              (test_mode (PBool true)) (test_mode (PBool false))
              (PStr "extract_sap_car_file") (PStr "./SAPCAR.exe")
              "home/sapuser/saprouter_600-80003478.sar" PNone PNone []
              eq_refl eq_refl eq_refl)
    as [announced [done [A [B [_ C]]]]].
  exists announced, done.
  destruct (C eq_refl) as [C1 [C2 _]].
  split; [exact A|]. split; [exact B|]. split; [exact C1 | exact C2].
Defined.

(** X18: every record [sar_file_extracted] returns keeps result and
    changes consistent: a failed result ([False]) has no changes, and a
    result that is not [False] has exactly the one change [output_dir];
    the result is [None] exactly in dry-run mode, and the comment always
    starts with [sar_file] unless it is the text of the delegate's
    error. *)
Theorem state_result_invariant (salt : Salt) (opts : Opts)
    (name sapcar_exe : PyVal) (sar_file : string)
    (output_dir options : PyVal) (tr : Trace) :
  match
    fst (sar_file_extracted salt opts name sapcar_exe sar_file output_dir
           options tr)
  with
  | Raise _ => True
  | Return r =>
      (result r = PBool false -> changes r = ∅)
      /\ (result r <> PBool false -> dom (changes r) = {[ "output_dir" ]})
      /\ (result r = PNone <-> truthy (test opts) = true)
      /\ (result r = PNone \/ result r = PBool true \/ result r = PBool false)
      /\ (result r <> PBool false ->
          exists rest, comment r = sar_file +:+ rest)
  end.
Proof.
  assert (Hdom : forall v : PyVal,
             dom (<["output_dir" := v]> (∅ : gmap string PyVal))
             = {[ "output_dir" ]})
    by (intros v; now rewrite dom_insert_L, dom_empty_L, union_empty_r_L).
  unfold sar_file_extracted.
  destruct (truthy (test opts)).
  - unfold ret, set_result, set_comment, set_change.
    cbn [fst Saputilsmod.name changes result comment].
    repeat split; try discriminate; try tauto; eauto.
  - unfold try_except_CommandExecutionError, bind,
      saputils_extract_sapcar_file.
    destruct (extract_sapcar_file salt tr sapcar_exe sar_file output_dir
                options) as [[msg|msg|msg]|];
      unfold ret, set_result, set_comment, set_change;
      cbn [fst Saputilsmod.name changes result comment]; try exact I.
    + repeat split; try discriminate; try tauto.
      all: intros H; now destruct H.
    + destruct (truthy output_dir);
        cbn [fst Saputilsmod.name changes result comment];
        repeat split; try discriminate; try tauto; eauto.
Qed.

Lemma state_result_invariant_witness :
  changes {| Saputilsmod.name := "home/sapuser/saprouter.sar";
             changes := ∅;
             result := PBool false;
             comment := "SAPCAR not found" |} = ∅
  /\ dom (changes
            {| Saputilsmod.name := "home/sapuser/saprouter.sar";
               changes := {[ "output_dir" := PStr "home/sapuser" ]};
               result := PBool true;
               comment := "home/sapuser/saprouter.sar file extracted" |})
     = {[ "output_dir" ]}.
Proof.
  split.
  - exact (proj1 (state_result_invariant
                    (fixed_salt true 0
                       (Some (CommandExecutionError "SAPCAR not found")))
                    (test_mode (PBool false))
                    (PStr "extract_sap_car_file") (PStr "./SAPCAR.exe")
                    "home/sapuser/saprouter.sar" PNone PNone [])
             eq_refl).
  - refine (proj1 (proj2 (state_result_invariant
                            (fixed_salt true 0 None)
                            (test_mode (PBool false))
                            (PStr "extract_sap_car_file") (PStr "./SAPCAR.exe")
                            "home/sapuser/saprouter.sar" PNone PNone []))
              _).
    discriminate.
Defined.

(** X19: when no output directory is given and the extraction succeeds,
    an archive [dir/file] (the directory not ending in a slash, the file
    name without slash) is reported as extracted to [dir], and an archive
    given by a bare file name, without any slash, is reported as
    extracted to the empty path. *)
Theorem sar_file_extracted_reports_parent (salt : Salt) (opts : Opts)
    (name sapcar_exe : PyVal) (dir file : string) (c : ascii)
    (output_dir options : PyVal) (tr : Trace) :
  truthy (test opts) = false ->
  truthy output_dir = false ->
  Posixpath.is_sep c = false ->
  ~ contains "/" file ->
  (let sar_file := dir +:+ String c EmptyString +:+ "/" +:+ file in
   extract_sapcar_file salt tr sapcar_exe sar_file output_dir options = None ->
   exists r : StateRet,
     fst (sar_file_extracted salt opts name sapcar_exe sar_file output_dir
            options tr) = Return r
     /\ changes r !! "output_dir" = Some (PStr (dir +:+ String c EmptyString)))
  /\ (extract_sapcar_file salt tr sapcar_exe file output_dir options = None ->
      exists r : StateRet,
        fst (sar_file_extracted salt opts name sapcar_exe file output_dir
               options tr) = Return r
        /\ changes r !! "output_dir" = Some (PStr EmptyString)).
Proof.
  intros Htest Hdir Hc Hfile. cbv zeta.
  split; intros Hok; unfold sar_file_extracted; rewrite Htest;
    unfold try_except_CommandExecutionError, bind,
      saputils_extract_sapcar_file;
    rewrite Hok, Hdir; unfold ret, set_result, set_comment, set_change;
    cbn [fst Saputilsmod.name changes result comment];
    eexists; (split; [reflexivity|]);
    cbn [Saputilsmod.name changes result comment];
    rewrite lookup_insert_eq.
  - now rewrite dirname_dir_file.
  - now rewrite dirname_bare_file.
Qed.

Lemma sar_file_extracted_reports_parent_witness :
  (exists r : StateRet,
     fst (sar_file_extracted (fixed_salt true 0 None) (test_mode (PBool false))
            (PStr "extract_sap_car_file") (PStr "./SAPCAR.exe")
            "home/sapuser/saprouter.sar" PNone PNone []) = Return r
     /\ changes r !! "output_dir" = Some (PStr "home/sapuser"))
  /\ (exists r : StateRet,
        fst (sar_file_extracted (fixed_salt true 0 None)
               (test_mode (PBool false))
               (PStr "extract_sap_car_file") (PStr "./SAPCAR.exe")
               "saprouter.sar" PNone PNone []) = Return r
        /\ changes r !! "output_dir" = Some (PStr EmptyString)).
Proof.
  assert (Hfile : ~ contains "/" "saprouter.sar")
    by (apply containsb_false; reflexivity).
  destruct (sar_file_extracted_reports_parent (fixed_salt true 0 None)
              (test_mode (PBool false))
              (PStr "extract_sap_car_file") (PStr "./SAPCAR.exe")
              "home/sapuse" "saprouter.sar" "r"%char PNone PNone []
              eq_refl eq_refl eq_refl Hfile) as [A B].
  split; [exact (A eq_refl) | exact (B eq_refl)].
Defined.
